(** * ai-budget: the budget estimation orchestrator of [src/App.tsx] and the
    estimation client of [src/services/geminiService.ts]

    The development embeds the state of the [App] component, the expense
    handlers, the memoised totals and the [handleCalculate] workflow, and
    proves the properties stated about them.

    JavaScript values are modelled as the program has them:
    - a string is its sequence of UTF-16 code units;
    - a number is an IEEE 754 binary64 value, taken from the
      specification of floating-point arithmetic in [SpecFloat]
      (precision 53, maximal exponent 1024), with round-to-nearest-even
      addition and subtraction; a decimal literal is rounded to the
      nearest number;
    - [Date.now()] is a reading of the clock, an integer number of
      milliseconds, supplied by the environment.

    The component is modelled as React runs it: the [useState] cells form
    one record, each setter replaces one cell of the current record, and
    a handler reads the cells and the memoised values of the render it
    was created in.  [handleCalculate] is cut at its two [await]s; what
    the user does to the form meanwhile, and how each remote call ends,
    are inputs of a run. *)

From Stdlib Require Import ZArith NArith List Bool Lia String Ascii.
From Stdlib Require Import Permutation.
From Stdlib Require Import Floats.SpecFloat.
Import ListNotations.

Local Open Scope Z_scope.

(** ** Strings *)

Module JsString.

(** A string value: the list of its code units. *)
Definition t := list N.

(** The code units of an ASCII literal. *)
Definition str (s : string) : t :=
  map N_of_ascii (list_ascii_of_string s).

(** [WhiteSpace] and [LineTerminator] code points of ECMAScript, the
    ones [String.prototype.trim] and [parseFloat] strip. *)
Definition isWhiteSpace (c : N) : bool :=
  ((9 <=? c) && (c <=? 13)        (* TAB, LF, VT, FF, CR *)
   || (c =? 32)                   (* SPACE *)
   || (c =? 160)                  (* NO-BREAK SPACE *)
   || (c =? 5760)                 (* U+1680 *)
   || ((8192 <=? c) && (c <=? 8202))  (* U+2000 .. U+200A *)
   || (c =? 8232) || (c =? 8233)  (* U+2028, U+2029 *)
   || (c =? 8239)                 (* U+202F *)
   || (c =? 8287)                 (* U+205F *)
   || (c =? 12288)                (* U+3000 *)
   || (c =? 65279))%N.            (* U+FEFF *)

Fixpoint trimStart (s : t) : t :=
  match s with
  | [] => []
  | c :: s' => if isWhiteSpace c then trimStart s' else s
  end.

Definition trimEnd (s : t) : t := rev (trimStart (rev s)).

(** [s.trim()] *)
Definition trim (s : t) : t := trimEnd (trimStart s).

(** [s === ''] *)
Definition isEmpty (s : t) : bool :=
  match s with [] => true | _ :: _ => false end.

(** [a === b] *)
Fixpoint eqb (a b : t) : bool :=
  match a, b with
  | [], [] => true
  | x :: a', y :: b' => (x =? y)%N && eqb a' b'
  | _, _ => false
  end.

End JsString.

(** ** Numbers *)

Module JsNumber.

Definition prec : Z := 53.
Definition emax : Z := 1024.

(** A number value. *)
Definition t := spec_float.

Definition NaN : t := S754_nan.
Definition Infinity : t := S754_infinity false.
Definition zero : t := S754_zero false.

(** [isNaN(x)] *)
Definition isNaN (x : t) : bool :=
  match x with S754_nan => true | _ => false end.

(** [isFinite(x)] *)
Definition isFinite (x : t) : bool :=
  match x with
  | S754_zero _ | S754_finite _ _ _ => true
  | S754_infinity _ | S754_nan => false
  end.

(** [x + y] *)
Definition add (x y : t) : t := SFadd prec emax x y.

(** [x - y] *)
Definition sub (x y : t) : t := SFsub prec emax x y.

(** [x > y] *)
Definition gt (x y : t) : bool := SFltb y x.

(** The number nearest to the integer [n]. *)
Definition ofZ (n : Z) : t := binary_normalize prec emax n 0 false.

(** The number nearest to [m * 10^e] for a positive [m], with the sign
    [neg]: the rounding of a decimal literal's mathematical value. *)
Definition ofDecimal (neg : bool) (m : positive) (e : Z) : t :=
  if 0 <=? e
  then binary_normalize prec emax
         (cond_Zopp neg (Zpos m * 10 ^ e)) 0 false
  else SFdiv prec emax
         (S754_finite neg m 0)
         (S754_finite false (Z.to_pos (10 ^ (- e))) 0).

(** A shifted mantissa with no bit lost: round and sticky bits clear. *)
Definition exact (m : Z) : shr_record :=
  {| shr_m := m; shr_r := false; shr_s := false |}.

(** The number a positive integer below [2^53] is, with the sign [s]:
    its mantissa brought to 53 digits. *)
Definition canonical (s : bool) (m : positive) : t :=
  S754_finite s
    (Z.to_pos (Zpos m * 2 ^ (53 - Zpos (digits2_pos m))))
    (Zpos (digits2_pos m) - 53).

(** *** [parseFloat] *)

Definition isDigit (c : N) : bool := ((48 <=? c) && (c <=? 57))%N.

(** The longest run of decimal digits at the front, and what follows. *)
Fixpoint spanDigits (s : list N) : list N * list N :=
  match s with
  | [] => ([], [])
  | c :: s' =>
      if isDigit c
      then let '(ds, rest) := spanDigits s' in (c :: ds, rest)
      else ([], s)
  end.

(** The value of a run of decimal digits. *)
Definition digitsValue (ds : list N) : Z :=
  fold_left (fun acc c => 10 * acc + (Z.of_N c - 48)) ds 0.

(** An optional sign: whether it is a minus, and what follows. *)
Definition spanSign (s : list N) : bool * list N :=
  match s with
  | 43%N :: s' => (false, s')
  | 45%N :: s' => (true, s')
  | _ => (false, s)
  end.

(** [ExponentPart], when one is present at the front: its value. *)
Definition exponentPart (s : list N) : Z :=
  match s with
  | c :: s' =>
      if ((c =? 101) || (c =? 69))%N      (* e, E *)
      then let '(neg, s'') := spanSign s' in
           match fst (spanDigits s'') with
           | [] => 0
           | ds => cond_Zopp neg (digitsValue ds)
           end
      else 0
  | [] => 0
  end.

Definition isPrefix (p s : list N) : bool :=
  JsString.eqb (firstn (List.length p) s) p.

(** The value of the mantissa digits [ds] scaled by [10^e]. *)
Definition decimalValue (neg : bool) (ds : list N) (e : Z) : t :=
  match digitsValue ds with
  | Zpos m => ofDecimal neg m e
  | _ => S754_zero neg
  end.

(** [parseFloat(s)]: the longest prefix of the string, leading white
    space dropped, that is a [StrDecimalLiteral], rounded to the
    nearest number; [NaN] when there is no such prefix. *)
Definition parseFloat (s : JsString.t) : t :=
  let '(neg, body) := spanSign (JsString.trimStart s) in
  if isPrefix (JsString.str "Infinity") body then S754_infinity neg
  else
    let '(int, rest) := spanDigits body in
    match rest with
    | 46%N :: rest' =>                     (* . *)
        let '(frac, rest'') := spanDigits rest' in
        match int, frac with
        | [], [] => NaN
        | _, _ =>
            decimalValue neg (int ++ frac)
              (exponentPart rest'' - Z.of_nat (List.length frac))
        end
    | _ =>
        match int with
        | [] => NaN
        | _ => decimalValue neg int (exponentPart rest)
        end
    end.

End JsNumber.

(** ** Values of another type

    The reply of the tax call is not checked against the schema it was
    asked to follow, so a state cell or an argument the program declares
    of one type can hold something else at run time. *)

(** What a place declared of type [A] holds: a value of that type,
    [undefined], [null], or a value of another type (a boolean, a number
    or a string, an array, an object), of which the program can only
    observe the number [ToNumber] makes of it. *)
Inductive Loose (A : Type) : Type :=
| Typed (a : A)
| Undefined
| Null
| Mistyped (asNumber : JsNumber.t).
Arguments Typed {A} a.
Arguments Undefined {A}.
Arguments Null {A}.
Arguments Mistyped {A} asNumber.

(** [ToNumber(v)], which the operator [-] applies to its operands. *)
Definition toNumber (v : Loose JsNumber.t) : JsNumber.t :=
  match v with
  | Typed n => n
  | Undefined => JsNumber.NaN
  | Null => JsNumber.zero
  | Mistyped n => n
  end.

(** Whether [v.toFixed(2)] can be called: only a number has the method;
    on anything else the call raises a [TypeError]. *)
Definition hasToFixed (v : Loose JsNumber.t) : bool :=
  match v with
  | Typed _ => true
  | _ => false
  end.

(** ** The expense entry ([types.ts]) *)

Module Types.

(** Modelled from the spec: the [Expense] type of [types.ts], which is
    not among the sources.  An entry has an identifier, a name and an
    amount kept as the string the user typed, which is how [App.tsx]
    builds and reads it. *)
Record Expense : Type := {
  id : Z;
  name : JsString.t;
  amount : JsString.t
}.

End Types.

(** ** The estimation client ([src/services/geminiService.ts]) *)

Module GeminiService.

Export Types.

(** What is thrown: an [Error] made with a message, or the [TypeError]
    of a method called on a value that has none. *)
Inductive JsError : Type :=
| Error (message : JsString.t)
| TypeError.

(** What an [async] function gives its caller: a value, or a thrown
    error. *)
Inductive Result (A : Type) : Type :=
| Return (a : A)
| Throw (e : JsError).
Arguments Return {A} a.
Arguments Throw {A} e.

(** An object of the schema the tax call asks for. *)
Record TaxJson : Type := {
  estimatedNetIncome : JsNumber.t;
  estimatedTotalTax : JsNumber.t;
  json_disclaimer : JsString.t
}.

(** How [ai.models.generateContent] followed by [JSON.parse] ends in
    [getEstimatedNetIncome]: the promise is rejected; the text of the
    response is not JSON, or is the JSON [null], of which no field can be
    read; or it parses to a value of which the function reads the three
    fields, whatever they hold, a missing field being [undefined]. *)
Inductive TaxReply : Type :=
| TaxRejected
| TaxNotJson
| TaxObject (estimatedNetIncome estimatedTotalTax : Loose JsNumber.t)
    (disclaimer : Loose JsString.t).

(** The reply that follows the schema. *)
Definition TaxParsed (result : TaxJson) : TaxReply :=
  TaxObject (Typed (estimatedNetIncome result))
    (Typed (estimatedTotalTax result))
    (Typed (json_disclaimer result)).

(** How [ai.models.generateContent] ends in [getBudgetAnalysis]: the
    promise is rejected, or resolves to a response with its [text], a
    string as the declared result [Promise<string>] of the function,
    which returns it unread, has it. *)
Inductive Response : Type :=
| Rejected
| Resolved (text : JsString.t).

Record TaxResult : Type := {
  netIncome : Loose JsNumber.t;
  totalTax : Loose JsNumber.t;
  disclaimer : Loose JsString.t
}.

(** The arguments of [getEstimatedNetIncome]. *)
Record TaxArgs : Type := {
  grossMonthlyIncome : JsNumber.t;
  tax_location : JsString.t;
  tax_filingStatus : JsString.t
}.

(** [getEstimatedNetIncome], given how the remote call ends. *)
Definition getEstimatedNetIncome (args : TaxArgs) (reply : TaxReply)
  : Result TaxResult :=
  match reply with
  | TaxObject estimatedNetIncome estimatedTotalTax disclaimer =>
      Return {| netIncome := estimatedNetIncome;
                totalTax := estimatedTotalTax;
                disclaimer := disclaimer |}
  | TaxRejected | TaxNotJson =>
      Throw (Error
               (JsString.str "Failed to generate tax estimation from AI."))
  end.

(** The arguments of [getBudgetAnalysis]. *)
Record AnalysisArgs : Type := {
  arg_grossIncome : Loose JsNumber.t;
  arg_netIncome : Loose JsNumber.t;
  arg_location : JsString.t;
  arg_expenses : list Expense;
  arg_totalExpenses : Loose JsNumber.t;
  arg_remainingBalance : Loose JsNumber.t
}.


(** Whether the prompt of [getBudgetAnalysis] can be built: it prints
    [grossIncome], [netIncome], [totalExpenses] and [remainingBalance]
    with [toFixed(2)], ahead of the [try] block.  (The itemisation comes
    first and cannot fail: [parseFloat] always gives a number.) *)
Definition promptBuilds (args : AnalysisArgs) : bool :=
  hasToFixed (arg_grossIncome args)
  && hasToFixed (arg_netIncome args)
  && hasToFixed (arg_totalExpenses args)
  && hasToFixed (arg_remainingBalance args).

(** [getBudgetAnalysis], given how the remote call ends when it is made:
    a [TypeError] while the prompt is built escapes the function before
    any remote call; a rejected call is caught and replaced by the
    function's own [Error]; a resolved call gives its text. *)
Definition getBudgetAnalysis (args : AnalysisArgs) (response : Response)
  : Result JsString.t :=
  if promptBuilds args then
    match response with
    | Resolved text => Return text
    | Rejected =>
        Throw (Error
                 (JsString.str "Failed to generate budget analysis from AI."))
    end
  else Throw TypeError.

End GeminiService.

(** ** The component state and the expense ledger ([src/App.tsx]) *)

Module App.

Import JsString.
Export GeminiService.

(** The [useState] cells of the component. *)
Record State : Type := {
  grossIncome : JsString.t;
  filingStatus : JsString.t;
  location : JsString.t;
  expenses : list Expense;
  netIncome : Loose JsNumber.t;
  estimatedTax : Loose JsNumber.t;
  taxDisclaimer : Loose JsString.t;
  analysis : JsString.t;
  isLoading : bool;
  loadingStatus : JsString.t;
  error : option JsString.t;
  showResults : bool
}.

(** The state of the first render, [Date.now()] being [now]. *)
Definition initial (now : Z) : State := {|
  grossIncome := [];
  filingStatus := str "Single";
  location := [];
  expenses := [ {| id := now; name := str "Rent/Mortgage"; amount := [] |} ];
  netIncome := Null;
  estimatedTax := Null;
  taxDisclaimer := Typed [];
  analysis := [];
  isLoading := false;
  loadingStatus := [];
  error := None;
  showResults := false
|}.

(** *** The state setters *)

Definition setGrossIncome (v : JsString.t) (s : State) : State :=
  {| grossIncome := v; filingStatus := filingStatus s;
     location := location s; expenses := expenses s;
     netIncome := netIncome s; estimatedTax := estimatedTax s;
     taxDisclaimer := taxDisclaimer s; analysis := analysis s;
     isLoading := isLoading s; loadingStatus := loadingStatus s;
     error := error s; showResults := showResults s |}.

Definition setFilingStatus (v : JsString.t) (s : State) : State :=
  {| grossIncome := grossIncome s; filingStatus := v;
     location := location s; expenses := expenses s;
     netIncome := netIncome s; estimatedTax := estimatedTax s;
     taxDisclaimer := taxDisclaimer s; analysis := analysis s;
     isLoading := isLoading s; loadingStatus := loadingStatus s;
     error := error s; showResults := showResults s |}.

Definition setLocation (v : JsString.t) (s : State) : State :=
  {| grossIncome := grossIncome s; filingStatus := filingStatus s;
     location := v; expenses := expenses s;
     netIncome := netIncome s; estimatedTax := estimatedTax s;
     taxDisclaimer := taxDisclaimer s; analysis := analysis s;
     isLoading := isLoading s; loadingStatus := loadingStatus s;
     error := error s; showResults := showResults s |}.

(** [setExpenses(prevExpenses => f(prevExpenses))] *)
Definition setExpenses (f : list Expense -> list Expense) (s : State)
  : State :=
  {| grossIncome := grossIncome s; filingStatus := filingStatus s;
     location := location s; expenses := f (expenses s);
     netIncome := netIncome s; estimatedTax := estimatedTax s;
     taxDisclaimer := taxDisclaimer s; analysis := analysis s;
     isLoading := isLoading s; loadingStatus := loadingStatus s;
     error := error s; showResults := showResults s |}.

Definition setNetIncome (v : Loose JsNumber.t) (s : State) : State :=
  {| grossIncome := grossIncome s; filingStatus := filingStatus s;
     location := location s; expenses := expenses s;
     netIncome := v; estimatedTax := estimatedTax s;
     taxDisclaimer := taxDisclaimer s; analysis := analysis s;
     isLoading := isLoading s; loadingStatus := loadingStatus s;
     error := error s; showResults := showResults s |}.

Definition setEstimatedTax (v : Loose JsNumber.t) (s : State) : State :=
  {| grossIncome := grossIncome s; filingStatus := filingStatus s;
     location := location s; expenses := expenses s;
     netIncome := netIncome s; estimatedTax := v;
     taxDisclaimer := taxDisclaimer s; analysis := analysis s;
     isLoading := isLoading s; loadingStatus := loadingStatus s;
     error := error s; showResults := showResults s |}.

Definition setTaxDisclaimer (v : Loose JsString.t) (s : State) : State :=
  {| grossIncome := grossIncome s; filingStatus := filingStatus s;
     location := location s; expenses := expenses s;
     netIncome := netIncome s; estimatedTax := estimatedTax s;
     taxDisclaimer := v; analysis := analysis s;
     isLoading := isLoading s; loadingStatus := loadingStatus s;
     error := error s; showResults := showResults s |}.

Definition setAnalysis (v : JsString.t) (s : State) : State :=
  {| grossIncome := grossIncome s; filingStatus := filingStatus s;
     location := location s; expenses := expenses s;
     netIncome := netIncome s; estimatedTax := estimatedTax s;
     taxDisclaimer := taxDisclaimer s; analysis := v;
     isLoading := isLoading s; loadingStatus := loadingStatus s;
     error := error s; showResults := showResults s |}.

Definition setIsLoading (v : bool) (s : State) : State :=
  {| grossIncome := grossIncome s; filingStatus := filingStatus s;
     location := location s; expenses := expenses s;
     netIncome := netIncome s; estimatedTax := estimatedTax s;
     taxDisclaimer := taxDisclaimer s; analysis := analysis s;
     isLoading := v; loadingStatus := loadingStatus s;
     error := error s; showResults := showResults s |}.

Definition setLoadingStatus (v : JsString.t) (s : State) : State :=
  {| grossIncome := grossIncome s; filingStatus := filingStatus s;
     location := location s; expenses := expenses s;
     netIncome := netIncome s; estimatedTax := estimatedTax s;
     taxDisclaimer := taxDisclaimer s; analysis := analysis s;
     isLoading := isLoading s; loadingStatus := v;
     error := error s; showResults := showResults s |}.

Definition setError (v : option JsString.t) (s : State) : State :=
  {| grossIncome := grossIncome s; filingStatus := filingStatus s;
     location := location s; expenses := expenses s;
     netIncome := netIncome s; estimatedTax := estimatedTax s;
     taxDisclaimer := taxDisclaimer s; analysis := analysis s;
     isLoading := isLoading s; loadingStatus := loadingStatus s;
     error := v; showResults := showResults s |}.

Definition setShowResults (v : bool) (s : State) : State :=
  {| grossIncome := grossIncome s; filingStatus := filingStatus s;
     location := location s; expenses := expenses s;
     netIncome := netIncome s; estimatedTax := estimatedTax s;
     taxDisclaimer := taxDisclaimer s; analysis := analysis s;
     isLoading := isLoading s; loadingStatus := loadingStatus s;
     error := error s; showResults := v |}.

(** *** The expense ledger *)

(** The field [handleExpenseChange] replaces. *)
Inductive Field : Type := FieldName | FieldAmount.

(** [{ ...expense, [field]: value }] *)
Definition withField (expense : Expense) (field : Field)
  (value : JsString.t) : Expense :=
  match field with
  | FieldName =>
      {| id := id expense; name := value; amount := amount expense |}
  | FieldAmount =>
      {| id := id expense; name := name expense; amount := value |}
  end.

(** [handleAddExpense], [Date.now()] being [now]. *)
Definition handleAddExpense (now : Z) : State -> State :=
  setExpenses (fun prevExpenses =>
    prevExpenses ++ [ {| id := now; name := []; amount := [] |} ]).

(** [handleRemoveExpense(id)] *)
Definition handleRemoveExpense (i : Z) : State -> State :=
  setExpenses (fun prevExpenses =>
    filter (fun expense => negb (id expense =? i)) prevExpenses).

(** [handleExpenseChange(id, field, value)] *)
Definition handleExpenseChange (i : Z) (field : Field)
  (value : JsString.t) : State -> State :=
  setExpenses (fun prevExpenses =>
    map (fun expense =>
           if id expense =? i then withField expense field value
           else expense)
        prevExpenses).

(** *** The memoised totals *)

(** The filter of the [useMemo] block:
    [e.name.trim() !== '' && e.amount.trim() !== ''
     && !isNaN(parseFloat(e.amount))]. *)
Definition isValidExpense (e : Expense) : bool :=
  negb (isEmpty (trim (name e)))
  && negb (isEmpty (trim (amount e)))
  && negb (JsNumber.isNaN (JsNumber.parseFloat (amount e))).

Definition validExpenses (expenses : list Expense) : list Expense :=
  filter isValidExpense expenses.

(** [validExpenses.reduce((sum, expense) =>
      sum + parseFloat(expense.amount), 0)] *)
Definition computeTotal (expenses : list Expense) : JsNumber.t :=
  fold_left
    (fun sum expense =>
       JsNumber.add sum (JsNumber.parseFloat (amount expense)))
    (validExpenses expenses) JsNumber.zero.

(** [!isNaN(numericGrossIncome) && numericGrossIncome > 0
     && location.trim() !== ''] *)
Definition formValid (grossIncome location : JsString.t) : bool :=
  let numericGrossIncome := JsNumber.parseFloat grossIncome in
  negb (JsNumber.isNaN numericGrossIncome)
  && JsNumber.gt numericGrossIncome JsNumber.zero
  && negb (isEmpty (trim location)).

(** The total as the specification words it: the sum of the amounts
    of the entries whose name is non-empty, whose amount is non-empty
    and whose amount parses to a finite number. *)
Definition specTotal (expenses : list Expense) : JsNumber.t :=
  fold_left
    (fun sum expense =>
       JsNumber.add sum (JsNumber.parseFloat (amount expense)))
    (filter
       (fun e =>
          negb (isEmpty (name e))
          && negb (isEmpty (amount e))
          && JsNumber.isFinite (JsNumber.parseFloat (amount e)))
       expenses)
    JsNumber.zero.

(** The sum of the integers [k] gives for the entries. *)
Definition sumOf (k : Expense -> Z) (l : list Expense) : Z :=
  fold_right (fun e acc => k e + acc) 0 l.

(** The two values of the [useMemo] block in a render of state [s]. *)
Definition totalExpenses (s : State) : JsNumber.t :=
  computeTotal (expenses s).

Definition isFormValid (s : State) : bool :=
  formValid (grossIncome s) (location s).

(** The [remainingBalance] memo of a render of state [s]:
    [null] when [netIncome === null], else the number
    [netIncome - totalExpenses]. *)
Definition remainingBalance (s : State) : option JsNumber.t :=
  match netIncome s with
  | Null => None
  | v => Some (JsNumber.sub (toNumber v) (totalExpenses s))
  end.

(** *** [handleCalculate]

    The function is a closure of the render it was created in: it
    reads [isFormValid], [grossIncome], [location], [filingStatus],
    [expenses] and [totalExpenses] of that render, written [r] below,
    and writes the state cells through their setters, which act on the
    current state [s].  It is cut at its two [await]s. *)

Definition validationMessage : JsString.t :=
  str "Please fill in your gross income, location, and at least one valid expense.".

Definition failureMessage : JsString.t :=
  str "An error occurred during analysis. Please check your inputs and try again.".

Notation "s |> f" := (f s) (at level 68, left associativity, only parsing).

(** The filter of [handleCalculate]:
    [e.name.trim() !== '' && e.amount.trim() !== '']. *)
Definition isListedExpense (e : Expense) : bool :=
  negb (isEmpty (trim (name e))) && negb (isEmpty (trim (amount e))).

(** The [catch] and [finally] blocks. *)
Definition onCatch (s : State) : State :=
  s |> setError (Some failureMessage) |> setShowResults false.

Definition onFinally (s : State) : State :=
  s |> setIsLoading false |> setLoadingStatus [].

(** From the call to the first [await]: the new state, and the
    arguments of [getEstimatedNetIncome] when it is called. *)
Definition handleCalculate_enter (r s : State) : State * option TaxArgs :=
  if negb (isFormValid r) then
    (s |> setError (Some validationMessage), None)
  else
    (s |> setError None
       |> setIsLoading true
       |> setShowResults true
       |> setAnalysis []
       |> setNetIncome Null
       |> setEstimatedTax Null
       |> setLoadingStatus (str "Estimating your taxes..."),
     Some {| grossMonthlyIncome := JsNumber.parseFloat (grossIncome r);
             tax_location := location r;
             tax_filingStatus := filingStatus r |}).

(** From the first [await] to the second: the new state, and the
    arguments of [getBudgetAnalysis] when it is called. *)
Definition handleCalculate_afterTax (r : State)
  (awaited : Result TaxResult) (s : State) : State * option AnalysisArgs :=
  match awaited with
  | Return taxResult =>
      let s' :=
        s |> setNetIncome (GeminiService.netIncome taxResult)
          |> setEstimatedTax (GeminiService.totalTax taxResult)
          |> setTaxDisclaimer (GeminiService.disclaimer taxResult)
          |> setLoadingStatus (str "Analyzing your budget...") in
      let finalRemainingBalance :=
        JsNumber.sub (toNumber (GeminiService.netIncome taxResult))
          (totalExpenses r) in
      let validExpenses := filter isListedExpense (expenses r) in
      (s',
       Some {| arg_grossIncome :=
                 Typed (JsNumber.parseFloat (grossIncome r));
               arg_netIncome := GeminiService.netIncome taxResult;
               arg_location := location r;
               arg_expenses := validExpenses;
               arg_totalExpenses := Typed (totalExpenses r);
               arg_remainingBalance := Typed finalRemainingBalance |})
  | Throw _ => (s |> onCatch |> onFinally, None)
  end.

(** From the second [await] to the end. *)
Definition handleCalculate_afterAnalysis
  (awaited : Result JsString.t) (s : State) : State :=
  match awaited with
  | Return analysisResult => s |> setAnalysis analysisResult |> onFinally
  | Throw _ => s |> onCatch |> onFinally
  end.

(** *** A run of [handleCalculate] in its environment *)

(** What the user can do to the form while a run is suspended (the
    button that starts a run is disabled while [isLoading]). *)
Inductive UiEvent : Type :=
| AddExpense (now : Z)
| RemoveExpense (i : Z)
| ExpenseChange (i : Z) (field : Field) (value : JsString.t)
| GrossIncomeChange (value : JsString.t)
| FilingStatusChange (value : JsString.t)
| LocationChange (value : JsString.t).

Definition handle (s : State) (ev : UiEvent) : State :=
  match ev with
  | AddExpense now => handleAddExpense now s
  | RemoveExpense i => handleRemoveExpense i s
  | ExpenseChange i field value => handleExpenseChange i field value s
  | GrossIncomeChange value => setGrossIncome value s
  | FilingStatusChange value => setFilingStatus value s
  | LocationChange value => setLocation value s
  end.

Definition handleAll (evs : list UiEvent) (s : State) : State :=
  fold_left handle evs s.

(** What happens around one run: the form events and the end of the
    remote call during each of the two [await]s.  When the prompt of the
    analysis cannot be built no remote call is made and the second
    [await] is over at once, before any form event. *)
Record Environment : Type := {
  duringTax : list UiEvent;
  taxReply : TaxReply;
  duringAnalysis : list UiEvent;
  analysisResponse : Response
}.

(** What a run leaves: the final state, the calls of the two client
    functions it made, and the state at the moment [getBudgetAnalysis]
    was called. *)
Record Outcome : Type := {
  final : State;
  taxCall : option TaxArgs;
  analysisCall : option AnalysisArgs;
  atAnalysisCall : option State
}.

(** A click on the button in the render of state [s0]. *)
Definition calculate (s0 : State) (env : Environment) : Outcome :=
  match handleCalculate_enter s0 s0 with
  | (s1, None) =>
      {| final := s1; taxCall := None;
         analysisCall := None; atAnalysisCall := None |}
  | (s1, Some taxArgs) =>
      let s2 := handleAll (duringTax env) s1 in
      let taxResult := getEstimatedNetIncome taxArgs (taxReply env) in
      match handleCalculate_afterTax s0 taxResult s2 with
      | (s3, None) =>
          {| final := s3; taxCall := Some taxArgs;
             analysisCall := None; atAnalysisCall := None |}
      | (s3, Some analysisArgs) =>
          let s4 :=
            if promptBuilds analysisArgs
            then handleAll (duringAnalysis env) s3
            else s3 in
          let analysisResult :=
            getBudgetAnalysis analysisArgs (analysisResponse env) in
          {| final := handleCalculate_afterAnalysis analysisResult s4;
             taxCall := Some taxArgs;
             analysisCall := Some analysisArgs;
             atAnalysisCall := Some s3 |}
      end
  end.

(** *** What the form events cannot touch *)

(** The fields of the state [handleCalculate] writes. *)
Record Results : Type := {
  res_netIncome : Loose JsNumber.t;
  res_estimatedTax : Loose JsNumber.t;
  res_taxDisclaimer : Loose JsString.t;
  res_analysis : JsString.t;
  res_isLoading : bool;
  res_loadingStatus : JsString.t;
  res_error : option JsString.t;
  res_showResults : bool
}.

Definition results (s : State) : Results :=
  {| res_netIncome := netIncome s;
     res_estimatedTax := estimatedTax s;
     res_taxDisclaimer := taxDisclaimer s;
     res_analysis := analysis s;
     res_isLoading := isLoading s;
     res_loadingStatus := loadingStatus s;
     res_error := error s;
     res_showResults := showResults s |}.

(** The property as the specification words it: the balance handed to
    [getBudgetAnalysis] is the net income minus the total of the ledger
    as it is when the call is made. *)
Definition usesCurrentTotal (s0 : State) (env : Environment) : Prop :=
  forall args s,
    analysisCall (calculate s0 env) = Some args ->
    atAnalysisCall (calculate s0 env) = Some s ->
    arg_remainingBalance args
    = Typed (JsNumber.sub (toNumber (arg_netIncome args)) (totalExpenses s)).

(** *** The rendered page

    What the component returns, without its markup: the values the
    conditionals of the JSX select.  A number handed to
    [currencyFormatter.format] is kept as that number. *)

(** [getBalanceColor(balance)] *)
Definition getBalanceColor (balance : option JsNumber.t) : JsString.t :=
  match balance with
  | None => str "text-gray-700"
  | Some b =>
      if JsNumber.gt b JsNumber.zero then str "text-green-500"
      else if JsNumber.gt JsNumber.zero b then str "text-red-500"
      else str "text-gray-700"
  end.

(** [x || 0] on a number: [NaN] and the two zeros are falsy. *)
Definition orZero (x : JsNumber.t) : JsNumber.t :=
  match x with
  | S754_nan | S754_zero _ => JsNumber.zero
  | _ => x
  end.

(** [v !== null ? currencyFormatter.format(v) : '...'], the formatted
    text being kept as the value handed to the formatter. *)
Inductive Money : Type :=
| Dots
| Formatted (v : Loose JsNumber.t).

(** For a state cell. *)
Definition money (v : Loose JsNumber.t) : Money :=
  match v with
  | Null => Dots
  | _ => Formatted v
  end.

(** For the [remainingBalance] memo, a number or [null]. *)
Definition balanceMoney (v : option JsNumber.t) : Money :=
  match v with
  | Some n => Formatted (Typed n)
  | None => Dots
  end.

(** The analysis area: the pulsing bars, or a text. *)
Inductive AnalysisBox : Type :=
| Skeleton
| Prose (text : JsString.t).

Definition tipsPlaceholder : JsString.t :=
  str "Your personalized financial tips will appear here.".

(** The summary shown when [showResults] holds. *)
Record Summary : Type := {
  shownGross : JsNumber.t;
  shownTax : Money;
  shownNet : Money;
  shownTotal : JsNumber.t;
  shownBalance : Money;
  shownBalanceColor : JsString.t;
  shownAnalysis : AnalysisBox
}.

(** The right-hand panel. *)
Inductive Panel : Type :=
| EmptyPanel
| SummaryPanel (v : Summary).

Record Page : Type := {
  buttonDisabled : bool;
  buttonLabel : JsString.t;
  errorLine : option JsString.t;
  panel : Panel
}.

Definition renderSummary (s : State) : Summary :=
  {| shownGross := orZero (JsNumber.parseFloat (grossIncome s));
     shownTax := money (estimatedTax s);
     shownNet := money (netIncome s);
     shownTotal := totalExpenses s;
     shownBalance := balanceMoney (remainingBalance s);
     shownBalanceColor := getBalanceColor (remainingBalance s);
     shownAnalysis :=
       if isLoading s
          && JsString.eqb (loadingStatus s) (str "Analyzing your budget...")
       then Skeleton
       else Prose (if isEmpty (analysis s) then tipsPlaceholder
                   else analysis s) |}.

(** The page of a render of state [s]. *)
Definition render (s : State) : Page :=
  {| buttonDisabled := negb (isFormValid s) || isLoading s;
     buttonLabel :=
       if isLoading s then loadingStatus s else str "Calculate & Analyze";
     errorLine :=
       match error s with
       | Some message => if isEmpty message then None else Some message
       | None => None
       end;
     panel := if showResults s then SummaryPanel (renderSummary s)
              else EmptyPanel |}.

(** The state while the tax call is in flight, and while the analysis
    call is in flight, in a run that gets there. *)
Definition awaitingTax (s0 : State) (evs : list UiEvent) : State :=
  handleAll evs (fst (handleCalculate_enter s0 s0)).

Definition awaitingAnalysis (s0 : State) (evs : list UiEvent)
  (taxResult : TaxResult) (evs' : list UiEvent) : State :=
  handleAll evs'
    (fst (handleCalculate_afterTax s0 (Return taxResult)
            (awaitingTax s0 evs))).

(** The cells the form fills, which [handleCalculate] only reads. *)
Record Form : Type := {
  form_grossIncome : JsString.t;
  form_filingStatus : JsString.t;
  form_location : JsString.t;
  form_expenses : list Expense
}.

Definition form (s : State) : Form :=
  {| form_grossIncome := grossIncome s;
     form_filingStatus := filingStatus s;
     form_location := location s;
     form_expenses := expenses s |}.

(** The states the page can be in at rest: the first render, then any
    succession of form events and of complete runs. *)
Inductive Reachable : State -> Prop :=
| reach_initial (now : Z) : Reachable (initial now)
| reach_event (s : State) (ev : UiEvent) :
    Reachable s -> Reachable (handle s ev)
| reach_run (s : State) (env : Environment) :
    Reachable s -> Reachable (final (calculate s env)).

End App.

Import App.

(** ** Sample data *)

Module Sample.

Import JsString.

Definition rent : Expense :=
  {| id := 1; name := str "Rent"; amount := str "1500" |}.

Definition unnamed : Expense :=
  {| id := 2; name := []; amount := str "200" |}.

(** A filled form: income 5000, location Austin, the two entries
    above. *)
Definition austin : State :=
  setExpenses (fun _ => [rent; unnamed])
    (setLocation (str "Austin")
       (setGrossIncome (str "5000") (initial 1))).

Definition estimate : TaxJson :=
  {| estimatedNetIncome := JsNumber.ofZ 4000;
     estimatedTotalTax := JsNumber.ofZ 1000;
     json_disclaimer := str "This is an estimate only." |}.

(** Both remote calls succeed and the form is left alone. *)
Definition quiet : Environment :=
  {| duringTax := [];
     taxReply := TaxParsed estimate;
     duringAnalysis := [];
     analysisResponse := Resolved (str "You are doing well.") |}.

(** The rent is edited to 2000 while the tax call is in flight. *)
Definition rentEdited : Environment :=
  {| duringTax := [ExpenseChange 1 FieldAmount (str "2000")];
     taxReply := TaxParsed estimate;
     duringAnalysis := [];
     analysisResponse := Resolved (str "You are doing well.") |}.

(** The tax call succeeds, the analysis call is rejected. *)
Definition analysisDown : Environment :=
  {| duringTax := [];
     taxReply := TaxParsed estimate;
     duringAnalysis := [];
     analysisResponse := Rejected |}.

(** The tax call is rejected. *)
Definition taxDown : Environment :=
  {| duringTax := [];
     taxReply := TaxRejected;
     duringAnalysis := [];
     analysisResponse := Rejected |}.

Definition groceries : Expense :=
  {| id := 8; name := str "Groceries"; amount := str "420" |}.

(** An entry whose amount is not a number. *)
Definition gym : Expense :=
  {| id := 3; name := str "Gym"; amount := str "n/a" |}.

Definition withGym : State :=
  setExpenses (fun _ => [rent; gym]) austin.

(** An entry whose amount parses to an infinity. *)
Definition yacht : Expense :=
  {| id := 4; name := str "Yacht"; amount := str "Infinity" |}.

(** An entry whose amount parses to the negative infinity. *)
Definition refund : Expense :=
  {| id := 9; name := str "Refund"; amount := str "-Infinity" |}.

(** Three entries of 0.1, 0.2 and 0.3. *)
Definition dime : Expense :=
  {| id := 5; name := str "Gum"; amount := str "0.1" |}.
Definition twoDimes : Expense :=
  {| id := 6; name := str "Candy"; amount := str "0.2" |}.
Definition threeDimes : Expense :=
  {| id := 7; name := str "Stamp"; amount := str "0.3" |}.

(** The tax call succeeds, the analysis call resolves with an empty
    text. *)
Definition emptyNarrative : Environment :=
  {| duringTax := [];
     taxReply := TaxParsed estimate;
     duringAnalysis := [];
     analysisResponse := Resolved [] |}.

(** What [getBudgetAnalysis] is given in a run from [austin] with this
    estimate. *)
Definition request : AnalysisArgs :=
  {| arg_grossIncome := Typed (JsNumber.ofZ 5000);
     arg_netIncome := Typed (JsNumber.ofZ 4000);
     arg_location := str "Austin";
     arg_expenses := [rent];
     arg_totalExpenses := Typed (JsNumber.ofZ 1500);
     arg_remainingBalance := Typed (JsNumber.ofZ 2500) |}.

(** The tax reply lacks its tax field. *)
Definition taxMissing : Environment :=
  {| duringTax := [];
     taxReply :=
       TaxObject (Typed (JsNumber.ofZ 4000)) Undefined
         (Typed (str "This is an estimate only."));
     duringAnalysis := [];
     analysisResponse := Resolved (str "You are doing well.") |}.

(** The tax reply is an empty object. *)
Definition replyEmpty : Environment :=
  {| duringTax := [];
     taxReply := TaxObject Undefined Undefined Undefined;
     duringAnalysis := [];
     analysisResponse := Resolved (str "You are doing well.") |}.

(** The form after a complete run, its income then cleared. *)
Definition incomeCleared : State :=
  setGrossIncome [] (final (calculate austin quiet)).

End Sample.

(** ** [parseFloat] on sample literals *)

Example parseFloat_tenth :
  JsNumber.parseFloat (JsString.str "0.1")
  = S754_finite false 7205759403792794 (-56).
Proof. reflexivity. Qed.

Example parseFloat_prefix :
  JsNumber.parseFloat (JsString.str "  -1.5e3 dollars")
  = JsNumber.ofZ (-1500).
Proof. reflexivity. Qed.

Example parseFloat_not_a_number :
  JsNumber.parseFloat (JsString.str "n/a") = JsNumber.NaN
  /\ JsNumber.parseFloat [] = JsNumber.NaN
  /\ JsNumber.parseFloat (JsString.str ".") = JsNumber.NaN.
Proof. repeat split. Qed.

Example parseFloat_overflow :
  JsNumber.parseFloat (JsString.str "1e999") = JsNumber.Infinity
  /\ JsNumber.parseFloat (JsString.str "1.7976931348623157e308")
     = S754_finite false 9007199254740991 971.
Proof. split; vm_compute; reflexivity. Qed.

Example add_tenth_fifth :
  JsNumber.add (JsNumber.parseFloat (JsString.str "0.1"))
    (JsNumber.parseFloat (JsString.str "0.2"))
  = JsNumber.parseFloat (JsString.str "0.30000000000000004").
Proof. vm_compute. reflexivity. Qed.

(** ** What the form events leave alone *)

Section Frame.

Lemma handle_results (s : State) (ev : UiEvent) :
  results (handle s ev) = results s.
Proof. destruct ev; reflexivity. Qed.

Lemma handleAll_results (evs : list UiEvent) (s : State) :
  results (handleAll evs s) = results s.
Proof.
  revert s; induction evs as [|ev evs IH]; intros s; [reflexivity|].
  unfold handleAll in *; simpl. rewrite IH. apply handle_results.
Qed.

Variables (evs : list UiEvent) (s : State).

Lemma handleAll_netIncome : netIncome (handleAll evs s) = netIncome s.
Proof. exact (f_equal res_netIncome (handleAll_results evs s)). Qed.

Lemma handleAll_estimatedTax :
  estimatedTax (handleAll evs s) = estimatedTax s.
Proof. exact (f_equal res_estimatedTax (handleAll_results evs s)). Qed.

Lemma handleAll_taxDisclaimer :
  taxDisclaimer (handleAll evs s) = taxDisclaimer s.
Proof. exact (f_equal res_taxDisclaimer (handleAll_results evs s)). Qed.

Lemma handleAll_analysis : analysis (handleAll evs s) = analysis s.
Proof. exact (f_equal res_analysis (handleAll_results evs s)). Qed.

Lemma handleAll_isLoading : isLoading (handleAll evs s) = isLoading s.
Proof. exact (f_equal res_isLoading (handleAll_results evs s)). Qed.

Lemma handleAll_loadingStatus :
  loadingStatus (handleAll evs s) = loadingStatus s.
Proof. exact (f_equal res_loadingStatus (handleAll_results evs s)). Qed.

Lemma handleAll_error : error (handleAll evs s) = error s.
Proof. exact (f_equal res_error (handleAll_results evs s)). Qed.

Lemma handleAll_showResults :
  showResults (handleAll evs s) = showResults s.
Proof. exact (f_equal res_showResults (handleAll_results evs s)). Qed.

End Frame.

Create Rewrite HintDb frame.
#[export] Hint Rewrite
  handleAll_netIncome handleAll_estimatedTax handleAll_taxDisclaimer
  handleAll_analysis handleAll_isLoading handleAll_loadingStatus
  handleAll_error handleAll_showResults : frame.

(** Unfolds a run whose form is valid down to its three segments. *)
Ltac enter_valid Hvalid :=
  unfold calculate, handleCalculate_enter; rewrite Hvalid; cbn [negb].

(** Reads a field of the final state through the form events. *)
Ltac through_events := cbn; repeat (autorewrite with frame; cbn).

(** ** The ledger seen by a suspended run *)

Lemma handle_expenses (s s' : State) (ev : UiEvent) :
  expenses s = expenses s' ->
  expenses (handle s ev) = expenses (handle s' ev).
Proof. intros H; destruct ev; cbn; rewrite H; reflexivity. Qed.

Lemma handleAll_expenses (evs : list UiEvent) (s s' : State) :
  expenses s = expenses s' ->
  expenses (handleAll evs s) = expenses (handleAll evs s').
Proof.
  revert s s'; induction evs as [|ev evs IH]; intros s s' H; [exact H|].
  unfold handleAll in *; simpl. apply IH, handle_expenses, H.
Qed.

(** ** The total handed to the analysis stage *)

(** C1, counterexample: the rent is 1500 when the button is clicked and
    is edited to 2000 while the tax call is in flight; the net income is
    4000.  The ledger's total is 2000 when the analysis is called, yet the
    balance handed over is 2500 = 4000 - 1500. *)
Lemma calculate_total_not_current :
  ~ usesCurrentTotal Sample.austin Sample.rentEdited.
Proof.
  intros H.
  specialize (H _ _ eq_refl eq_refl).
  vm_compute in H. discriminate H.
Qed.

(** C1, amended: in every run that reaches the analysis stage, whatever
    happens to the form meanwhile, [getBudgetAnalysis] receives the total
    of the render in which the button was clicked and the net income of
    the tax estimate minus that total; the ledger of the state at that
    moment is the clicked one with the form events applied, and plays no
    part. *)
Theorem calculate_uses_captured_total
  (s0 : State) (env : Environment) (result : TaxJson) :
  isFormValid s0 = true ->
  taxReply env = TaxParsed result ->
  exists args s,
    analysisCall (calculate s0 env) = Some args
    /\ atAnalysisCall (calculate s0 env) = Some s
    /\ arg_netIncome args = Typed (estimatedNetIncome result)
    /\ arg_totalExpenses args = Typed (totalExpenses s0)
    /\ arg_remainingBalance args
       = Typed (JsNumber.sub (estimatedNetIncome result) (totalExpenses s0))
    /\ netIncome s = Typed (estimatedNetIncome result)
    /\ expenses s = expenses (handleAll (duringTax env) s0).
Proof.
  intros Hvalid Hreply.
  enter_valid Hvalid. rewrite Hreply. cbn.
  eexists; eexists. repeat split.
  apply handleAll_expenses. reflexivity.
Qed.

Lemma calculate_uses_captured_total_witness :
  exists args s,
    analysisCall (calculate Sample.austin Sample.rentEdited) = Some args
    /\ atAnalysisCall (calculate Sample.austin Sample.rentEdited) = Some s
    /\ arg_netIncome args = Typed (estimatedNetIncome Sample.estimate)
    /\ arg_totalExpenses args = Typed (totalExpenses Sample.austin)
    /\ arg_remainingBalance args
       = Typed (JsNumber.sub (estimatedNetIncome Sample.estimate)
                  (totalExpenses Sample.austin))
    /\ netIncome s = Typed (estimatedNetIncome Sample.estimate)
    /\ expenses s
       = expenses (handleAll (duringTax Sample.rentEdited) Sample.austin).
Proof.
  apply (calculate_uses_captured_total Sample.austin Sample.rentEdited
           Sample.estimate); reflexivity.
Defined.

(** ** Failed runs *)

(** C2, counterexample: after a complete run the income field is
    cleared and [handleCalculate] is called again.  Validation fails, the
    message is set, and [showResults] is still true. *)
Lemma calculate_invalid_keeps_results_shown :
  isFormValid Sample.incomeCleared = false
  /\ error (final (calculate Sample.incomeCleared Sample.quiet))
     = Some validationMessage
  /\ showResults (final (calculate Sample.incomeCleared Sample.quiet))
     <> false.
Proof. vm_compute. repeat split; discriminate. Qed.

(** C2, amended: a run that fails at the tax stage or at the analysis
    stage ends with the generic message set and [showResults] false; a run
    that fails validation ends with the validation message set, makes no
    remote call and leaves [showResults] as it was. *)
Theorem calculate_failure_state (s0 : State) (env : Environment) :
  (isFormValid s0 = false ->
     error (final (calculate s0 env)) = Some validationMessage
     /\ showResults (final (calculate s0 env)) = showResults s0
     /\ taxCall (calculate s0 env) = None
     /\ analysisCall (calculate s0 env) = None)
  /\ (isFormValid s0 = true ->
      (taxReply env = TaxRejected \/ taxReply env = TaxNotJson)
      \/ analysisResponse env = Rejected
      \/ (exists v t d,
            taxReply env = TaxObject v t d /\ hasToFixed v = false) ->
      error (final (calculate s0 env)) = Some failureMessage
      /\ showResults (final (calculate s0 env)) = false).
Proof.
  split.
  - intros Hinvalid.
    unfold calculate, handleCalculate_enter. rewrite Hinvalid. cbn.
    repeat split.
  - intros Hvalid Hfail.
    enter_valid Hvalid.
    destruct (taxReply env) as [| |v t d] eqn:Hreply;
      try (through_events; split; reflexivity).
    cbn. unfold getBudgetAnalysis, promptBuilds. cbn.
    destruct (hasToFixed v) eqn:Hv; cbn;
      [|through_events; split; reflexivity].
    destruct Hfail as [[Hfail|Hfail]|[Hfail|(v' & t' & d' & Hfail & Hv')]];
      try discriminate Hfail.
    + rewrite Hfail. through_events. split; reflexivity.
    + injection Hfail as -> _ _. congruence.
Qed.

Lemma calculate_failure_state_witness :
  (error (final (calculate Sample.incomeCleared Sample.quiet))
   = Some validationMessage
   /\ showResults (final (calculate Sample.incomeCleared Sample.quiet))
      = showResults Sample.incomeCleared
   /\ taxCall (calculate Sample.incomeCleared Sample.quiet) = None
   /\ analysisCall (calculate Sample.incomeCleared Sample.quiet) = None)
  /\ (error (final (calculate Sample.austin Sample.analysisDown))
      = Some failureMessage
      /\ showResults (final (calculate Sample.austin Sample.analysisDown))
         = false).
Proof.
  split.
  - apply (proj1 (calculate_failure_state Sample.incomeCleared Sample.quiet)).
    reflexivity.
  - apply (proj2 (calculate_failure_state Sample.austin Sample.analysisDown)).
    + reflexivity.
    + right. left. reflexivity.
Defined.

(** C3, counterexample: the tax call yields a net income of 4000 and a
    tax of 1000, the analysis call is rejected; the final state still
    holds both numbers. *)
Lemma calculate_keeps_tax_estimate_on_analysis_failure :
  isFormValid Sample.austin = true
  /\ taxReply Sample.analysisDown = TaxParsed Sample.estimate
  /\ analysisResponse Sample.analysisDown = Rejected
  /\ netIncome (final (calculate Sample.austin Sample.analysisDown))
     = Typed (JsNumber.ofZ 4000)
  /\ estimatedTax (final (calculate Sample.austin Sample.analysisDown))
     = Typed (JsNumber.ofZ 1000)
  /\ netIncome (final (calculate Sample.austin Sample.analysisDown)) <> Null.
Proof. vm_compute. repeat split; discriminate. Qed.

(** C3, amended: when the tax stage succeeds and the analysis stage
    fails, be it that the remote call is rejected or that the net income
    of the reply is not a number, the final state has [showResults] false
    and the generic message set, so the summary is not rendered;
    [netIncome], [estimatedTax] and [taxDisclaimer] keep what the tax
    reply held, and [analysis] is empty.  The next valid run clears
    [netIncome] and [estimatedTax] as it starts and never clears
    [taxDisclaimer], which a failed tax stage leaves as it is. *)
Theorem calculate_analysis_failure_state
  (s0 : State) (env : Environment)
  (v t : Loose JsNumber.t) (d : Loose JsString.t) :
  isFormValid s0 = true ->
  taxReply env = TaxObject v t d ->
  analysisResponse env = Rejected \/ hasToFixed v = false ->
  let failed := final (calculate s0 env) in
  showResults failed = false
  /\ error failed = Some failureMessage
  /\ netIncome failed = v
  /\ estimatedTax failed = t
  /\ taxDisclaimer failed = d
  /\ analysis failed = []
  /\ isLoading failed = false
  /\ (isFormValid failed = true ->
      let entered := fst (handleCalculate_enter failed failed) in
      netIncome entered = Null
      /\ estimatedTax entered = Null
      /\ taxDisclaimer entered = d)
  /\ (forall env',
        isFormValid failed = true ->
        taxReply env' = TaxRejected \/ taxReply env' = TaxNotJson ->
        netIncome (final (calculate failed env')) = Null
        /\ estimatedTax (final (calculate failed env')) = Null
        /\ taxDisclaimer (final (calculate failed env')) = d).
Proof.
  intros Hvalid Hreply Hfail failed.
  assert (Hfailed : showResults failed = false
                    /\ error failed = Some failureMessage
                    /\ netIncome failed = v
                    /\ estimatedTax failed = t
                    /\ taxDisclaimer failed = d
                    /\ analysis failed = []
                    /\ isLoading failed = false).
  { unfold failed. enter_valid Hvalid. rewrite Hreply. cbn.
    unfold getBudgetAnalysis, promptBuilds. cbn.
    destruct (hasToFixed v) eqn:Hv; cbn.
    - destruct Hfail as [Hfail|Hfail]; [|discriminate Hfail].
      rewrite Hfail. through_events. repeat split.
    - through_events. repeat split. }
  destruct Hfailed as (Hs & He & Hn & Ht & Hd & Ha & Hl).
  clearbody failed.
  repeat (split; [assumption|]).
  split.
  - intros Hvalid'. unfold handleCalculate_enter. rewrite Hvalid'. cbn.
    repeat split. exact Hd.
  - intros env' Hvalid' Hfail'.
    enter_valid Hvalid'.
    destruct Hfail' as [Hfail'|Hfail']; rewrite Hfail';
      through_events; repeat split; exact Hd.
Qed.

Lemma calculate_analysis_failure_state_witness :
  showResults (final (calculate Sample.austin Sample.analysisDown)) = false
  /\ error (final (calculate Sample.austin Sample.analysisDown))
     = Some failureMessage
  /\ netIncome (final (calculate Sample.austin Sample.analysisDown))
     = Typed (estimatedNetIncome Sample.estimate)
  /\ estimatedTax (final (calculate Sample.austin Sample.analysisDown))
     = Typed (estimatedTotalTax Sample.estimate)
  /\ taxDisclaimer (final (calculate Sample.austin Sample.analysisDown))
     = Typed (json_disclaimer Sample.estimate)
  /\ taxDisclaimer
       (final (calculate (final (calculate Sample.austin Sample.analysisDown))
                 Sample.taxDown))
     = Typed (json_disclaimer Sample.estimate).
Proof.
  pose proof (calculate_analysis_failure_state Sample.austin
                Sample.analysisDown
                (Typed (estimatedNetIncome Sample.estimate))
                (Typed (estimatedTotalTax Sample.estimate))
                (Typed (json_disclaimer Sample.estimate))
                eq_refl eq_refl (or_introl eq_refl)) as H.
  cbv zeta in H.
  destruct H as (Hs & He & Hn & Ht & Hd & _ & _ & _ & Hnext).
  repeat (split; [assumption|]).
  apply (Hnext Sample.taxDown eq_refl (or_introl eq_refl)).
Defined.

(** ** The disclaimer of an earlier run *)

(** C10: entering a valid run clears [netIncome], [estimatedTax] and
    [analysis] and leaves [taxDisclaimer] alone; when the tax stage then
    fails, whatever the form events, the final state still carries the
    disclaimer the state had when the button was clicked, with the three
    cleared fields still cleared. *)
Theorem calculate_tax_failure_keeps_disclaimer
  (s0 : State) (env : Environment) :
  isFormValid s0 = true ->
  taxReply env = TaxRejected \/ taxReply env = TaxNotJson ->
  (let entered := fst (handleCalculate_enter s0 s0) in
   netIncome entered = Null
   /\ estimatedTax entered = Null
   /\ analysis entered = []
   /\ taxDisclaimer entered = taxDisclaimer s0)
  /\ taxDisclaimer (final (calculate s0 env)) = taxDisclaimer s0
  /\ netIncome (final (calculate s0 env)) = Null
  /\ estimatedTax (final (calculate s0 env)) = Null
  /\ analysis (final (calculate s0 env)) = []
  /\ analysisCall (calculate s0 env) = None.
Proof.
  intros Hvalid Hfail. split.
  - unfold handleCalculate_enter. rewrite Hvalid. cbn. repeat split.
  - enter_valid Hvalid.
    destruct Hfail as [Hfail|Hfail]; rewrite Hfail;
      through_events; repeat split.
Qed.

Lemma calculate_tax_failure_keeps_disclaimer_witness :
  taxDisclaimer (final (calculate Sample.austin Sample.quiet))
  = Typed (JsString.str "This is an estimate only.")
  /\ taxDisclaimer
       (final (calculate (final (calculate Sample.austin Sample.quiet))
                 Sample.taxDown))
     = taxDisclaimer (final (calculate Sample.austin Sample.quiet))
  /\ netIncome
       (final (calculate (final (calculate Sample.austin Sample.quiet))
                 Sample.taxDown))
     = Null.
Proof.
  split; [reflexivity|].
  split;
    apply (calculate_tax_failure_keeps_disclaimer
             (final (calculate Sample.austin Sample.quiet)) Sample.taxDown);
    solve [reflexivity | left; reflexivity].
Defined.

(** ** The analysis client *)

(** C8, counterexample: the remote call resolves with an empty text;
    [getBudgetAnalysis] returns the empty string and throws nothing, and
    the run ends complete, with an empty analysis, without a message and
    with the summary shown. *)
Lemma getBudgetAnalysis_returns_empty_narrative :
  analysisCall (calculate Sample.austin Sample.emptyNarrative)
  = Some Sample.request
  /\ getBudgetAnalysis Sample.request (Resolved []) = Return []
  /\ analysis (final (calculate Sample.austin Sample.emptyNarrative)) = []
  /\ error (final (calculate Sample.austin Sample.emptyNarrative)) = None
  /\ showResults (final (calculate Sample.austin Sample.emptyNarrative))
     = true.
Proof. repeat split. Qed.

Lemma promptBuilds_iff (args : AnalysisArgs) :
  promptBuilds args = true
  <-> forall x,
        In x [arg_grossIncome args; arg_netIncome args;
              arg_totalExpenses args; arg_remainingBalance args] ->
        exists n, x = Typed n.
Proof.
  unfold promptBuilds. split.
  - intros H x Hx.
    repeat (apply andb_true_iff in H; destruct H as [H ?]).
    cbn in Hx.
    destruct Hx as [<-|[<-|[<-|[<-|[]]]]];
      match goal with
      | Hx : hasToFixed ?v = true |- exists n, ?v = Typed n =>
          destruct v; try discriminate Hx; eexists; reflexivity
      end.
  - intros H.
    destruct (H (arg_grossIncome args)) as [? ->]; [cbn; auto|].
    destruct (H (arg_netIncome args)) as [? ->]; [cbn; auto|].
    destruct (H (arg_totalExpenses args)) as [? ->]; [cbn; auto|].
    destruct (H (arg_remainingBalance args)) as [? ->]; [cbn; auto|].
    reflexivity.
Qed.

(** C8, amended: [getBudgetAnalysis] throws exactly when one of the four
    arguments it prints with [toFixed] is not a number, which raises a
    [TypeError] before any remote call, or the remote call is rejected;
    otherwise it returns the text of the response as it is, the empty
    text included.  In a run, three of the four arguments are numbers by
    construction and the net income is what the tax reply held; when that
    is a number and the response is the empty text, the run completes:
    the analysis is empty, there is no message and the summary is
    shown. *)
Theorem getBudgetAnalysis_outcomes
  (args : AnalysisArgs) (response : Response) :
  ((exists e, getBudgetAnalysis args response = Throw e)
   <-> (exists x,
          In x [arg_grossIncome args; arg_netIncome args;
                arg_totalExpenses args; arg_remainingBalance args]
          /\ forall n, x <> Typed n)
       \/ response = Rejected)
  /\ (getBudgetAnalysis args response = Throw TypeError
      <-> exists x,
            In x [arg_grossIncome args; arg_netIncome args;
                  arg_totalExpenses args; arg_remainingBalance args]
            /\ forall n, x <> Typed n)
  /\ (forall text,
        (forall x,
           In x [arg_grossIncome args; arg_netIncome args;
                 arg_totalExpenses args; arg_remainingBalance args] ->
           exists n, x = Typed n) ->
        response = Resolved text ->
        getBudgetAnalysis args response = Return text)
  /\ (forall s0 env,
        analysisCall (calculate s0 env) = Some args ->
        exists gross total balance,
          arg_grossIncome args = Typed gross
          /\ arg_totalExpenses args = Typed total
          /\ arg_remainingBalance args = Typed balance)
  /\ (forall s0 env n t d,
        isFormValid s0 = true ->
        taxReply env = TaxObject (Typed n) t d ->
        analysisResponse env = Resolved [] ->
        analysis (final (calculate s0 env)) = []
        /\ error (final (calculate s0 env)) = None
        /\ showResults (final (calculate s0 env)) = true
        /\ isLoading (final (calculate s0 env)) = false).
Proof.
  assert (Hbad : promptBuilds args = false
                 <-> exists x,
                       In x [arg_grossIncome args; arg_netIncome args;
                             arg_totalExpenses args;
                             arg_remainingBalance args]
                       /\ forall n, x <> Typed n).
  { split.
    - unfold promptBuilds. intros H.
      destruct (arg_grossIncome args) eqn:Hg;
        try (eexists; split; [left; reflexivity|discriminate]).
      destruct (arg_netIncome args) eqn:Hn;
        try (eexists; split; [right; left; reflexivity|discriminate]).
      destruct (arg_totalExpenses args) eqn:Ht;
        try (eexists; split;
             [right; right; left; reflexivity|discriminate]).
      destruct (arg_remainingBalance args) eqn:Hb;
        try (eexists; split;
             [right; right; right; left; reflexivity|discriminate]).
      all: try discriminate H.
    - intros (x & Hx & Hno).
      destruct (promptBuilds args) eqn:Hbuilds; [|reflexivity].
      destruct (proj1 (promptBuilds_iff args) Hbuilds x Hx) as [n Hn].
      destruct (Hno n Hn). }
  split; [|split; [|split; [|split]]].
  - unfold getBudgetAnalysis. split.
    + intros [e H]. destruct (promptBuilds args) eqn:Hbuilds.
      * right. destruct response; [reflexivity|discriminate H].
      * left. apply Hbad. reflexivity.
    + intros [H| ->].
      * apply Hbad in H. rewrite H. eexists. reflexivity.
      * destruct (promptBuilds args); eexists; reflexivity.
  - unfold getBudgetAnalysis. split.
    + intros H. apply Hbad.
      destruct (promptBuilds args); [|reflexivity].
      destruct response; discriminate H.
    + intros H. apply Hbad in H. rewrite H. reflexivity.
  - intros text Hall ->. unfold getBudgetAnalysis.
    rewrite (proj2 (promptBuilds_iff args) Hall). reflexivity.
  - intros s0 env. unfold calculate, handleCalculate_enter.
    destruct (isFormValid s0); cbn [negb]; [|discriminate].
    destruct (taxReply env) as [| |v t d]; cbn; try discriminate.
    intros [= <-]. cbn. repeat eexists.
  - intros s0 env n t d Hvalid Hreply Hresponse.
    enter_valid Hvalid. rewrite Hreply, Hresponse.
    through_events. repeat split.
Qed.

Lemma getBudgetAnalysis_outcomes_witness :
  getBudgetAnalysis Sample.request (Resolved []) = Return []
  /\ (exists e, getBudgetAnalysis Sample.request Rejected = Throw e)
  /\ error (final (calculate Sample.austin Sample.emptyNarrative)) = None.
Proof.
  split; [|split].
  - apply (getBudgetAnalysis_outcomes Sample.request (Resolved [])).
    + intros x [<-|[<-|[<-|[<-|[]]]]]; eexists; reflexivity.
    + reflexivity.
  - apply (proj1 (getBudgetAnalysis_outcomes Sample.request Rejected)).
    right. reflexivity.
  - apply (proj2 (proj2 (proj2 (proj2
             (getBudgetAnalysis_outcomes Sample.request (Resolved [])))))
           Sample.austin Sample.emptyNarrative
           (estimatedNetIncome Sample.estimate)
           (Typed (estimatedTotalTax Sample.estimate))
           (Typed (json_disclaimer Sample.estimate)));
      reflexivity.
Defined.

(** ** Expense identifiers *)

Lemma filter_id_app (i : Z) (l l' : list Expense) :
  filter (fun expense => negb (id expense =? i)) (l ++ l')
  = filter (fun expense => negb (id expense =? i)) l
    ++ filter (fun expense => negb (id expense =? i)) l'.
Proof. apply filter_app. Qed.

(** C9: an entry's id is the clock reading at its creation, so two
    entries added at the same reading, or one added at the reading of the
    first render, carry the same id; [handleRemoveExpense] keeps exactly
    the entries of a different id, so it removes all of those at once. *)
Theorem remove_deletes_every_entry_of_that_id :
  (forall now s,
     expenses (handleAddExpense now (handleAddExpense now s))
     = expenses s ++ [ {| id := now; name := []; amount := [] |};
                       {| id := now; name := []; amount := [] |} ])
  /\ (forall now s,
        expenses (handleRemoveExpense now
                    (handleAddExpense now (handleAddExpense now s)))
        = expenses (handleRemoveExpense now s))
  /\ (forall now,
        expenses (handleRemoveExpense now (handleAddExpense now (initial now)))
        = [])
  /\ (forall i s e,
        In e (expenses (handleRemoveExpense i s))
        <-> In e (expenses s) /\ id e <> i).
Proof.
  repeat split.
  - intros now s. cbn. rewrite <- app_assoc. reflexivity.
  - intros now s. cbn. rewrite !filter_id_app. cbn.
    rewrite Z.eqb_refl. cbn. rewrite !app_nil_r. reflexivity.
  - intros now. cbn. rewrite Z.eqb_refl. reflexivity.
  - cbn in H. apply filter_In in H. apply H.
  - cbn in H. apply filter_In in H. destruct H as [_ H].
    apply negb_true_iff, Z.eqb_neq in H. exact H.
  - intros [Hin Hid]. cbn. apply filter_In. split; [exact Hin|].
    apply negb_true_iff, Z.eqb_neq. exact Hid.
Qed.

(** ** Strings that trim to nothing *)

Lemma trimStart_nil_iff (s : JsString.t) :
  JsString.trimStart s = [] <-> forallb JsString.isWhiteSpace s = true.
Proof.
  induction s as [|c s IH]; cbn; [tauto|].
  destruct (JsString.isWhiteSpace c); cbn; [exact IH|].
  split; discriminate.
Qed.

Lemma trimStart_head (s : JsString.t) :
  match JsString.trimStart s with
  | [] => True
  | c :: _ => JsString.isWhiteSpace c = false
  end.
Proof.
  induction s as [|c s IH]; cbn; [exact I|].
  destruct (JsString.isWhiteSpace c) eqn:Hc; [exact IH|exact Hc].
Qed.

(** [s.trim()] is empty exactly when [s] is made of white space only. *)
Lemma trim_nil_iff (s : JsString.t) :
  JsString.trim s = [] <-> forallb JsString.isWhiteSpace s = true.
Proof.
  unfold JsString.trim, JsString.trimEnd. split.
  - intros H. apply trimStart_nil_iff.
    apply (f_equal (@rev N)) in H. rewrite rev_involutive in H. cbn in H.
    apply trimStart_nil_iff in H. rewrite forallb_forall in H.
    pose proof (trimStart_head s) as Hhead.
    destruct (JsString.trimStart s) as [|c rest]; [reflexivity|].
    rewrite (H c) in Hhead; [discriminate Hhead|].
    apply -> in_rev. left. reflexivity.
  - intros H. apply trimStart_nil_iff in H. rewrite H. reflexivity.
Qed.

Lemma isEmpty_trim (s : JsString.t) :
  JsString.isEmpty (JsString.trim s) = forallb JsString.isWhiteSpace s.
Proof.
  destruct (forallb JsString.isWhiteSpace s) eqn:H.
  - apply trim_nil_iff in H. rewrite H. reflexivity.
  - destruct (JsString.trim s) eqn:Ht; [|reflexivity].
    apply trim_nil_iff in Ht. congruence.
Qed.

(** ** The submission gate *)

(** C6, counterexample: with the income field holding [Infinity] the
    gate is open, and the parsed income is not a finite number. *)
Lemma formValid_accepts_infinite_income :
  formValid (JsString.str "Infinity") (JsString.str "Austin") = true
  /\ JsNumber.isFinite (JsNumber.parseFloat (JsString.str "Infinity"))
     = false.
Proof. split; reflexivity. Qed.

(** C6, amended: the gate is open exactly when the income parses to a
    number above zero, that is to a positive finite number or to
    [+Infinity], and the location has a code unit that is not white
    space; it is closed when the income parses to [NaN], to a zero or to
    a negative number; and it does not depend on the expenses. *)
Theorem formValid_iff (grossIncome location : JsString.t) :
  (formValid grossIncome location = true
   <-> (JsNumber.parseFloat grossIncome = JsNumber.Infinity
        \/ exists m e, JsNumber.parseFloat grossIncome = S754_finite false m e)
       /\ forallb JsString.isWhiteSpace location = false)
  /\ (forall s f, isFormValid (setExpenses f s) = isFormValid s)
  /\ (forall s ev,
        isFormValid (handle s ev)
        = match ev with
          | GrossIncomeChange value => formValid value (App.location s)
          | LocationChange value => formValid (App.grossIncome s) value
          | _ => isFormValid s
          end).
Proof.
  split; [|split; [reflexivity | intros s []; reflexivity]].
  unfold formValid. rewrite isEmpty_trim.
  destruct (JsNumber.parseFloat grossIncome) as [[]|[]| |[] m e];
    destruct (forallb JsString.isWhiteSpace location); cbn;
    (split;
     [ intros H;
       first [ discriminate H
             | split; [first [left; reflexivity | right; eauto] | reflexivity] ]
     | intros [[H|(m' & e' & H)] H']; first [discriminate | reflexivity] ]).
Qed.

Lemma formValid_iff_witness :
  formValid (JsString.str "5000") (JsString.str "Austin") = true
  /\ forallb JsString.isWhiteSpace (JsString.str "Austin") = false.
Proof.
  split.
  - apply (proj1 (formValid_iff (JsString.str "5000")
                    (JsString.str "Austin"))).
    split; [right|]; [|reflexivity].
    exists 5497558138880000%positive, (-40). reflexivity.
  - apply (proj1 (proj1 (formValid_iff (JsString.str "5000")
                           (JsString.str "Austin")))).
    reflexivity.
Defined.

(** ** Exact arithmetic on integers below [2^53] *)

Section Binary64.

Import JsNumber.

Lemma digits2_pos_log2 (p : positive) :
  Zpos (digits2_pos p) = Z.succ (Z.log2 (Zpos p)).
Proof.
  assert (H : digits2_pos p = Pos.size p)
    by (induction p as [p IH|p IH|]; cbn; congruence).
  rewrite H. destruct p; cbn; lia.
Qed.

Lemma digits2_pos_shift (m M : positive) (k : Z) :
  0 <= k -> Zpos M = Zpos m * 2 ^ k ->
  Zpos (digits2_pos M) = Zpos (digits2_pos m) + k.
Proof.
  intros Hk HM. rewrite !digits2_pos_log2, HM.
  rewrite Z.log2_mul_pow2 by lia. lia.
Qed.

Lemma digits2_pos_bound (m : positive) (n : Z) :
  0 < n -> Zpos m < 2 ^ n -> Zpos (digits2_pos m) <= n.
Proof.
  intros Hn Hm. rewrite digits2_pos_log2.
  apply Z.log2_lt_pow2 in Hm; lia.
Qed.

Lemma shr_1_exact (n : Z) : shr_1 (exact (2 * n)) = exact n.
Proof. destruct n as [|p|p]; reflexivity. Qed.

Lemma iter_pos_shr_1_exact (p : positive) (n : Z) :
  iter_pos shr_1 p (exact (n * 2 ^ Zpos p)) = exact n.
Proof.
  revert n; induction p as [p IH|p IH|]; intros n; cbn [iter_pos].
  - replace (n * 2 ^ Zpos p~1) with (2 * ((n * 2 ^ Zpos p) * 2 ^ Zpos p)).
    + rewrite shr_1_exact, !IH. reflexivity.
    + replace (Zpos p~1) with (Zpos p + Zpos p + 1) by lia.
      rewrite !Z.pow_add_r by lia. ring.
  - replace (n * 2 ^ Zpos p~0) with ((n * 2 ^ Zpos p) * 2 ^ Zpos p).
    + rewrite !IH. reflexivity.
    + replace (Zpos p~0) with (Zpos p + Zpos p) by lia.
      rewrite !Z.pow_add_r by lia. ring.
  - replace (n * 2 ^ 1) with (2 * n) by ring. apply shr_1_exact.
Qed.

(** Shifting a mantissa that is a 53-digit one times a power of two
    down to its exponent loses nothing. *)
Lemma shr_fexp_exact (M mz : positive) (e ez : Z) :
  Zpos M = Zpos mz * 2 ^ (ez - e) ->
  e <= ez ->
  Zpos (digits2_pos mz) = 53 ->
  -1074 <= ez ->
  shr_fexp prec emax (Zpos M) e loc_Exact = (exact (Zpos mz), ez).
Proof.
  intros HM He Hd Hez.
  unfold shr_fexp, Zdigits2, fexp, emin, prec, emax.
  rewrite (digits2_pos_shift mz M (ez - e)) by lia.
  rewrite Hd.
  replace (Z.max (53 + (ez - e) + e - 53) (3 - 1024 - 53) - e)
    with (ez - e) by lia.
  cbn [shr_record_of_loc]. fold (exact (Zpos M)).
  unfold shr.
  destruct (ez - e) as [|p|p] eqn:Hshift; [| |lia].
  - rewrite Z.mul_1_r in HM. rewrite HM. f_equal. lia.
  - rewrite HM, iter_pos_shr_1_exact. f_equal. lia.
Qed.

Lemma binary_round_aux_exact (s : bool) (M mz : positive) (e ez : Z) :
  Zpos M = Zpos mz * 2 ^ (ez - e) ->
  e <= ez ->
  Zpos (digits2_pos mz) = 53 ->
  -1074 <= ez <= 971 ->
  binary_round_aux prec emax s (Zpos M) e loc_Exact = S754_finite s mz ez.
Proof.
  intros HM He Hd Hez.
  unfold binary_round_aux.
  rewrite (shr_fexp_exact M mz e ez) by (assumption || lia).
  cbn [exact shr_m loc_of_shr_record round_nearest_even].
  rewrite (shr_fexp_exact mz mz ez ez);
    [ | rewrite Z.sub_diag; lia | lia | assumption | lia ].
  cbn [exact shr_m].
  unfold prec, emax.
  destruct (Z.leb_spec ez (1024 - 53)); [reflexivity|lia].
Qed.

Lemma binary_round_exact (s : bool) (M m : positive) (k : Z) :
  0 <= k ->
  Zpos M = Zpos m * 2 ^ k ->
  Zpos m < 2 ^ 53 ->
  binary_round prec emax s M (- k) = canonical s m.
Proof.
  intros Hk HM Hm.
  pose proof (digits2_pos_bound m 53 ltac:(lia) Hm) as Hd.
  pose proof (digits2_pos_shift m M k Hk HM) as HdM.
  pose proof (Pos2Z.is_pos (digits2_pos m)) as Hd0.
  set (d := Zpos (digits2_pos m)) in *.
  assert (Hpow : 0 < 2 ^ (53 - d)) by (apply Z.pow_pos_nonneg; lia).
  set (mz := Z.to_pos (Zpos m * 2 ^ (53 - d))).
  assert (Hmz : Zpos mz = Zpos m * 2 ^ (53 - d))
    by (unfold mz; rewrite Z2Pos.id; lia).
  assert (Hdz : Zpos (digits2_pos mz) = 53)
    by (rewrite (digits2_pos_shift m mz (53 - d)); fold d; lia).
  unfold canonical. fold d. fold mz.
  unfold binary_round.
  replace (fexp prec emax (Zpos (digits2_pos M) + - k)) with (d - 53)
    by (unfold fexp, emin, prec, emax; lia).
  unfold shl_align.
  destruct (d - 53 - - k) as [|p|p] eqn:Hshift.
  - apply binary_round_aux_exact; try lia.
    rewrite HM, Hmz, <- Z.mul_assoc, <- Z.pow_add_r by lia.
    f_equal. f_equal. lia.
  - apply binary_round_aux_exact; try lia.
    rewrite HM, Hmz, <- Z.mul_assoc, <- Z.pow_add_r by lia.
    f_equal. f_equal. lia.
  - apply binary_round_aux_exact; try lia.
    rewrite Z.sub_diag, Z.mul_1_r.
    change (Pos.iter xO M p) with (Zpower.shift_pos p M).
    rewrite Zpower.shift_pos_correct.
    change (Zpower_pos 2 p) with (2 ^ Zpos p).
    rewrite HM, Hmz.
    replace (53 - d) with (Zpos p + k) by lia.
    rewrite Z.pow_add_r by lia. ring.
Qed.


Lemma binary_normalize_scaled (n k : Z) :
  0 <= k ->
  Z.abs n < 2 ^ 53 ->
  binary_normalize prec emax (n * 2 ^ k) (- k) false
  = binary_normalize prec emax n 0 false.
Proof.
  intros Hk Hn.
  assert (Hpow : 0 < 2 ^ k) by (apply Z.pow_pos_nonneg; lia).
  destruct n as [|m|m].
  - reflexivity.
  - destruct (Zpos m * 2 ^ k) as [|M|M] eqn:HM; try lia.
    cbn [binary_normalize].
    rewrite (binary_round_exact false M m k) by lia.
    change 0 with (- 0).
    rewrite (binary_round_exact false m m 0) by lia.
    reflexivity.
  - destruct (Zneg m * 2 ^ k) as [|M|M] eqn:HM; try lia.
    cbn [binary_normalize].
    rewrite (binary_round_exact true M m k) by lia.
    change 0 with (- 0).
    rewrite (binary_round_exact true m m 0) by lia.
    reflexivity.
Qed.

Lemma shl_align_fst (mx : positive) (ex ez : Z) :
  ez <= ex ->
  Zpos (fst (shl_align mx ex ez)) = Zpos mx * 2 ^ (ex - ez).
Proof.
  intros H. unfold shl_align.
  destruct (ez - ex) as [|p|p] eqn:Hshift; cbn [fst]; try lia.
  - replace (ex - ez) with 0 by lia. lia.
  - change (Pos.iter xO mx p) with (Zpower.shift_pos p mx).
    rewrite Zpower.shift_pos_correct.
    change (Zpower_pos 2 p) with (2 ^ Zpos p).
    replace (ex - ez) with (Zpos p) by lia. ring.
Qed.

Lemma ofZ_canonical (n : Z) :
  Z.abs n < 2 ^ 53 ->
  ofZ n = match n with
          | Z0 => S754_zero false
          | Zpos m => canonical false m
          | Zneg m => canonical true m
          end.
Proof.
  intros Hn. unfold ofZ. destruct n as [|m|m]; [reflexivity| |];
    cbn [binary_normalize]; change 0 with (- 0);
    apply binary_round_exact; lia.
Qed.

Lemma canonical_value (s : bool) (m : positive) :
  Zpos m < 2 ^ 53 ->
  exists mz ez,
    canonical s m = S754_finite s mz ez
    /\ ez <= 0
    /\ Zpos mz = Zpos m * 2 ^ (- ez).
Proof.
  intros Hm.
  pose proof (digits2_pos_bound m 53 ltac:(lia) Hm) as Hd.
  eexists; eexists. split; [reflexivity|]. split; [lia|].
  assert (0 < 2 ^ (53 - Zpos (digits2_pos m)))
    by (apply Z.pow_pos_nonneg; lia).
  rewrite Z2Pos.id by lia. f_equal. f_equal. lia.
Qed.

Lemma SFadd_canonical (sa sb : bool) (ma mb : positive) :
  Zpos ma < 2 ^ 53 -> Zpos mb < 2 ^ 53 ->
  Z.abs (cond_Zopp sa (Zpos ma) + cond_Zopp sb (Zpos mb)) < 2 ^ 53 ->
  SFadd prec emax (canonical sa ma) (canonical sb mb)
  = ofZ (cond_Zopp sa (Zpos ma) + cond_Zopp sb (Zpos mb)).
Proof.
  intros Ha Hb Hab.
  destruct (canonical_value sa ma Ha) as (xa & ea & -> & Hea & Hxa).
  destruct (canonical_value sb mb Hb) as (xb & eb & -> & Heb & Hxb).
  unfold SFadd. cbv zeta.
  rewrite !shl_align_fst by lia. rewrite Hxa, Hxb.
  set (ez := Z.min ea eb).
  assert (Hscale : forall e, e <= 0 -> ez <= e ->
                     2 ^ (- e) * 2 ^ (e - ez) = 2 ^ (- ez)).
  { intros e He Hez. rewrite <- Z.pow_add_r by lia. f_equal. lia. }
  rewrite <- !Z.mul_assoc, !Hscale by lia.
  unfold ofZ.
  rewrite <- (binary_normalize_scaled _ (- ez)) by lia.
  rewrite Z.opp_involutive. f_equal.
  destruct sa, sb; cbn [cond_Zopp]; ring.
Qed.

Lemma SFadd_ofZ (a b : Z) :
  Z.abs a < 2 ^ 53 -> Z.abs b < 2 ^ 53 -> Z.abs (a + b) < 2 ^ 53 ->
  SFadd prec emax (ofZ a) (ofZ b) = ofZ (a + b).
Proof.
  intros Ha Hb Hab.
  rewrite (ofZ_canonical a Ha), (ofZ_canonical b Hb).
  destruct a as [|ma|ma]; destruct b as [|mb|mb];
    try (cbn [Z.add]; rewrite ?ofZ_canonical by assumption; reflexivity).
  - apply (SFadd_canonical false false); assumption || lia.
  - apply (SFadd_canonical false true); assumption || lia.
  - apply (SFadd_canonical true false); assumption || lia.
  - apply (SFadd_canonical true true); assumption || lia.
Qed.

End Binary64.

(** ** [parseFloat] on whole numbers *)

Lemma isDigit_cases (c : N) :
  JsNumber.isDigit c = true ->
  (c = 48 \/ c = 49 \/ c = 50 \/ c = 51 \/ c = 52
   \/ c = 53 \/ c = 54 \/ c = 55 \/ c = 56 \/ c = 57)%N.
Proof.
  unfold JsNumber.isDigit. intros H.
  apply andb_true_iff in H. destruct H as [H1 H2].
  apply N.leb_le in H1, H2. lia.
Qed.

Lemma spanDigits_all (s : list N) :
  forallb JsNumber.isDigit s = true -> JsNumber.spanDigits s = (s, []).
Proof.
  induction s as [|c s IH]; cbn; [reflexivity|].
  intros H. apply andb_true_iff in H. destruct H as [Hc Hs].
  rewrite Hc, (IH Hs). reflexivity.
Qed.

Lemma digitsValue_nonneg (s : list N) (acc : Z) :
  forallb JsNumber.isDigit s = true ->
  0 <= acc ->
  0 <= fold_left (fun acc c => 10 * acc + (Z.of_N c - 48)) s acc.
Proof.
  revert acc; induction s as [|c s IH]; intros acc H Hacc;
    cbn [fold_left]; [exact Hacc|].
  cbn [forallb] in H. apply andb_true_iff in H. destruct H as [Hc Hs].
  apply IH; [exact Hs|].
  unfold JsNumber.isDigit in Hc. apply andb_true_iff in Hc.
  destruct Hc as [Hc _]. apply N.leb_le in Hc. lia.
Qed.

(** A string of decimal digits parses to the number nearest to the
    integer it writes. *)
Lemma parseFloat_digits (c : N) (s : list N) :
  forallb JsNumber.isDigit (c :: s) = true ->
  JsNumber.parseFloat (c :: s)
  = JsNumber.ofZ (JsNumber.digitsValue (c :: s)).
Proof.
  intros H.
  pose proof (spanDigits_all _ H) as Hspan.
  pose proof (digitsValue_nonneg _ 0 H (Z.le_refl 0)) as Hnonneg.
  fold (JsNumber.digitsValue (c :: s)) in Hnonneg.
  assert (Hc : JsNumber.isDigit c = true)
    by (cbn [forallb] in H; apply andb_true_iff in H; apply H).
  assert (Hhead : JsString.trimStart (c :: s) = c :: s
                  /\ JsNumber.spanSign (c :: s) = (false, c :: s)
                  /\ JsNumber.isPrefix (JsString.str "Infinity") (c :: s)
                     = false).
  { destruct (isDigit_cases c Hc) as [->|[->|[->|[->|[->|[->|[->|[->|[->| ->]]]]]]]]];
      repeat split. }
  destruct Hhead as (Htrim & Hsign & Hprefix).
  unfold JsNumber.parseFloat.
  rewrite Htrim, Hsign, Hprefix, Hspan.
  unfold JsNumber.decimalValue, JsNumber.exponentPart.
  destruct (JsNumber.digitsValue (c :: s)) as [|m|m]; [reflexivity| |lia].
  unfold JsNumber.ofDecimal, JsNumber.ofZ. cbn [Z.leb Z.compare cond_Zopp].
  rewrite Z.pow_0_r, Z.mul_1_r. reflexivity.
Qed.

(** ** The ledger's total *)

Lemma validExpenses_app (l l' : list Expense) :
  validExpenses (l ++ l') = validExpenses l ++ validExpenses l'.
Proof. apply filter_app. Qed.

Lemma computeTotal_snoc (es : list Expense) (e : Expense) :
  computeTotal (es ++ [e])
  = if isValidExpense e
    then JsNumber.add (computeTotal es) (JsNumber.parseFloat (amount e))
    else computeTotal es.
Proof.
  unfold computeTotal. rewrite validExpenses_app. cbn.
  destruct (isValidExpense e).
  - rewrite fold_left_app. reflexivity.
  - rewrite app_nil_r. reflexivity.
Qed.

Lemma computeTotal_skip (before after : list Expense) (e : Expense) :
  isValidExpense e = false ->
  computeTotal (before ++ e :: after) = computeTotal (before ++ after).
Proof.
  intros H. unfold computeTotal.
  rewrite !validExpenses_app. cbn. rewrite H. reflexivity.
Qed.

Lemma isValidExpense_iff (e : Expense) :
  isValidExpense e = true
  <-> forallb JsString.isWhiteSpace (name e) = false
      /\ forallb JsString.isWhiteSpace (amount e) = false
      /\ JsNumber.parseFloat (amount e) <> JsNumber.NaN.
Proof.
  unfold isValidExpense. rewrite !isEmpty_trim.
  destruct (forallb JsString.isWhiteSpace (name e));
    destruct (forallb JsString.isWhiteSpace (amount e));
    destruct (JsNumber.parseFloat (amount e)); cbn;
    (split; [ intros H; first [discriminate H | repeat split; discriminate]
            | intros (H1 & H2 & H3);
              first [discriminate | reflexivity | destruct (H3 eq_refl)] ]).
Qed.

(** C4, counterexample: a named entry whose amount reads [Infinity]
    passes the filter of the total, and the total is infinite, while the
    total of the specification, which leaves such an entry out, is 0. *)
Lemma computeTotal_counts_infinite_amount :
  computeTotal [Sample.yacht] = JsNumber.Infinity
  /\ JsNumber.isFinite (JsNumber.parseFloat (amount Sample.yacht)) = false
  /\ specTotal [Sample.yacht] = JsNumber.zero
  /\ computeTotal [Sample.yacht] <> specTotal [Sample.yacht].
Proof. vm_compute. repeat split; discriminate. Qed.

Lemma add_not_finite (x y : JsNumber.t) :
  JsNumber.isFinite x = false \/ JsNumber.isFinite y = false ->
  JsNumber.isFinite (JsNumber.add x y) = false.
Proof.
  destruct x as [[]|[]| |[] mx ex]; destruct y as [[]|[]| |[] my ey];
    cbn; intros [H|H]; solve [reflexivity | discriminate H].
Qed.

Lemma fold_add_not_finite (l : list Expense) (acc : JsNumber.t) :
  JsNumber.isFinite acc = false
  \/ (exists e,
        In e l
        /\ JsNumber.isFinite (JsNumber.parseFloat (amount e)) = false) ->
  JsNumber.isFinite
    (fold_left
       (fun sum expense =>
          JsNumber.add sum (JsNumber.parseFloat (amount expense)))
       l acc) = false.
Proof.
  revert acc; induction l as [|x l IH]; intros acc H; cbn [fold_left].
  - destruct H as [H|(e & [] & _)]. exact H.
  - apply IH. destruct H as [H|(e & [<-|He] & Hinf)].
    + left. apply add_not_finite. left. exact H.
    + left. apply add_not_finite. right. exact Hinf.
    + right. exists e. split; assumption.
Qed.

(** C4, amended: the total is 0 for the empty collection and is built
    entry by entry, from the left: an entry adds [parseFloat] of its
    amount when its name and its amount both have a code unit that is not
    white space and the amount does not parse to [NaN], and leaves the
    total as it is otherwise, wherever it stands in the collection.  An
    amount that parses to an infinity is added like any other, and the
    total is then not a finite number: it is infinite, or [NaN], as when
    infinities of both signs are counted.  For the entries Rent 1500 and
    an unnamed 200 the total is 1500. *)
Theorem computeTotal_sums_valid_entries :
  computeTotal [] = JsNumber.zero
  /\ (forall es e,
        computeTotal (es ++ [e])
        = if isValidExpense e
          then JsNumber.add (computeTotal es)
                 (JsNumber.parseFloat (amount e))
          else computeTotal es)
  /\ (forall before e after,
        isValidExpense e = false ->
        computeTotal (before ++ e :: after) = computeTotal (before ++ after))
  /\ (forall e,
        isValidExpense e = true
        <-> forallb JsString.isWhiteSpace (name e) = false
            /\ forallb JsString.isWhiteSpace (amount e) = false
            /\ JsNumber.parseFloat (amount e) <> JsNumber.NaN)
  /\ (forall es e,
        In e es ->
        isValidExpense e = true ->
        JsNumber.isFinite (JsNumber.parseFloat (amount e)) = false ->
        JsNumber.isFinite (computeTotal es) = false)
  /\ computeTotal [Sample.yacht; Sample.refund] = JsNumber.NaN
  /\ computeTotal [Sample.rent; Sample.unnamed] = JsNumber.ofZ 1500
  /\ isFormValid Sample.austin = true.
Proof.
  split; [reflexivity|].
  split; [exact computeTotal_snoc|].
  split; [intros before e after; apply computeTotal_skip|].
  split; [exact isValidExpense_iff|].
  split.
  - intros es e Hin Hvalid Hinf. unfold computeTotal.
    apply fold_add_not_finite. right. exists e. split; [|exact Hinf].
    apply filter_In. split; assumption.
  - repeat split.
Qed.

Lemma computeTotal_sums_valid_entries_witness :
  computeTotal ([Sample.rent] ++ Sample.unnamed :: [])
  = computeTotal ([Sample.rent] ++ [])
  /\ JsNumber.isFinite (computeTotal [Sample.rent; Sample.yacht]) = false.
Proof.
  split.
  - apply (proj1 (proj2 (proj2 computeTotal_sums_valid_entries))).
    reflexivity.
  - apply (proj1 (proj2 (proj2 (proj2 (proj2
             computeTotal_sums_valid_entries))))
           [Sample.rent; Sample.yacht] Sample.yacht);
      solve [reflexivity | right; left; reflexivity].
Defined.

(** ** The expenses handed to the analysis stage *)



(** ** The total and the order of the entries *)

Lemma validExpenses_Permutation (es es' : list Expense) :
  Permutation es es' -> Permutation (validExpenses es) (validExpenses es').
Proof.
  unfold validExpenses.
  induction 1 as [|e l l' _ IH|e e' l|l l' l'' _ IH _ IH']; cbn.
  - constructor.
  - destruct (isValidExpense e); [constructor|]; exact IH.
  - destruct (isValidExpense e), (isValidExpense e');
      try apply Permutation_refl. apply perm_swap.
  - exact (perm_trans IH IH').
Qed.

Lemma sumOf_Permutation (k : Expense -> Z) (l l' : list Expense) :
  Permutation l l' -> sumOf k l = sumOf k l'.
Proof.
  unfold sumOf.
  induction 1 as [|e l l' _ IH|e e' l|l l' l'' _ IH _ IH']; cbn; lia.
Qed.

Lemma sumOf_abs_nonneg (k : Expense -> Z) (l : list Expense) :
  0 <= sumOf (fun e => Z.abs (k e)) l.
Proof. unfold sumOf. induction l as [|e l IH]; cbn; lia. Qed.

(** Adding up, from the left, amounts that are integers: as long as the
    absolute values stay below [2^53] in total, every partial sum is the
    integer it should be. *)
Lemma fold_add_ofZ (k : Expense -> Z) (l : list Expense) (acc : Z) :
  (forall e, In e l -> JsNumber.parseFloat (amount e) = JsNumber.ofZ (k e)) ->
  Z.abs acc + sumOf (fun e => Z.abs (k e)) l < 2 ^ 53 ->
  fold_left
    (fun sum expense =>
       JsNumber.add sum (JsNumber.parseFloat (amount expense)))
    l (JsNumber.ofZ acc)
  = JsNumber.ofZ (acc + sumOf k l).
Proof.
  unfold sumOf.
  revert acc; induction l as [|e l IH]; intros acc Hk Hbound;
    cbn [fold_left fold_right] in *.
  - rewrite Z.add_0_r. reflexivity.
  - pose proof (sumOf_abs_nonneg k l) as Hnonneg. unfold sumOf in Hnonneg.
    rewrite (Hk e (or_introl eq_refl)).
    unfold JsNumber.add at 2. rewrite SFadd_ofZ by lia.
    rewrite IH.
    + f_equal. lia.
    + intros x Hx. apply Hk. right. exact Hx.
    + lia.
Qed.

(** C7, counterexample: the entries 0.1, 0.2 and 0.3 add up to
    0.6000000000000001 in that order and to 0.6 in the reverse order. *)
Lemma computeTotal_depends_on_order :
  Permutation [Sample.dime; Sample.twoDimes; Sample.threeDimes]
    [Sample.threeDimes; Sample.twoDimes; Sample.dime]
  /\ computeTotal [Sample.dime; Sample.twoDimes; Sample.threeDimes]
     = JsNumber.parseFloat (JsString.str "0.6000000000000001")
  /\ computeTotal [Sample.threeDimes; Sample.twoDimes; Sample.dime]
     = JsNumber.parseFloat (JsString.str "0.6")
  /\ computeTotal [Sample.dime; Sample.twoDimes; Sample.threeDimes]
     <> computeTotal [Sample.threeDimes; Sample.twoDimes; Sample.dime].
Proof.
  split.
  - exact (Permutation_rev
             [Sample.dime; Sample.twoDimes; Sample.threeDimes]).
  - vm_compute. repeat split. discriminate.
Qed.

(** C7, amended: the entries that count toward the total are the same
    in every order, whatever their amounts; when the amount of every
    counted entry parses to an integer and the absolute values of these
    integers add up to less than [2^53], the total is their exact sum,
    hence the same for every permutation of the collection; and there
    are collections whose total differs between two orders. *)
Theorem computeTotal_order_independent_on_integers :
  (forall es es',
     Permutation es es' ->
     Permutation (validExpenses es) (validExpenses es'))
  /\ (forall es es' (k : Expense -> Z),
        Permutation es es' ->
        (forall e,
           In e es -> isValidExpense e = true ->
           JsNumber.parseFloat (amount e) = JsNumber.ofZ (k e)) ->
        sumOf (fun e => Z.abs (k e)) (validExpenses es) < 2 ^ 53 ->
        computeTotal es = JsNumber.ofZ (sumOf k (validExpenses es))
        /\ computeTotal es' = computeTotal es)
  /\ (exists es es',
        Permutation es es' /\ computeTotal es <> computeTotal es').
Proof.
  split; [exact validExpenses_Permutation|]. split.
  - intros es es' k Hperm Hk Hbound.
    pose proof (validExpenses_Permutation es es' Hperm) as Hvalid.
    assert (Htotal : forall l,
              Permutation (validExpenses es) l ->
              fold_left
                (fun sum expense =>
                   JsNumber.add sum (JsNumber.parseFloat (amount expense)))
                l JsNumber.zero
              = JsNumber.ofZ (sumOf k (validExpenses es))).
    { intros l Hl.
      change JsNumber.zero with (JsNumber.ofZ 0).
      rewrite (fold_add_ofZ k l 0).
      - rewrite (sumOf_Permutation k _ _ Hl). reflexivity.
      - intros e He.
        apply (Permutation_in _ (Permutation_sym Hl)) in He.
        apply filter_In in He. apply Hk; apply He.
      - rewrite <- (sumOf_Permutation _ _ _ Hl). cbn. exact Hbound. }
    split.
    + apply Htotal, Permutation_refl.
    + unfold computeTotal at 1. rewrite (Htotal _ Hvalid).
      symmetry. apply Htotal, Permutation_refl.
  - exists [Sample.dime; Sample.twoDimes; Sample.threeDimes],
           [Sample.threeDimes; Sample.twoDimes; Sample.dime].
    split.
    + exact (Permutation_rev
               [Sample.dime; Sample.twoDimes; Sample.threeDimes]).
    + vm_compute. discriminate.
Qed.

Lemma computeTotal_order_independent_on_integers_witness :
  Permutation (validExpenses [Sample.dime; Sample.unnamed; Sample.twoDimes])
    (validExpenses [Sample.twoDimes; Sample.unnamed; Sample.dime])
  /\ computeTotal [Sample.rent; Sample.unnamed; Sample.groceries]
     = JsNumber.ofZ
         (sumOf (fun e => JsNumber.digitsValue (amount e))
            (validExpenses [Sample.rent; Sample.unnamed; Sample.groceries]))
  /\ computeTotal [Sample.groceries; Sample.unnamed; Sample.rent]
     = computeTotal [Sample.rent; Sample.unnamed; Sample.groceries].
Proof.
  split.
  - apply (proj1 computeTotal_order_independent_on_integers).
    exact (Permutation_rev [Sample.dime; Sample.unnamed; Sample.twoDimes]).
  - apply (proj1 (proj2 computeTotal_order_independent_on_integers)
             [Sample.rent; Sample.unnamed; Sample.groceries]
             [Sample.groceries; Sample.unnamed; Sample.rent]
             (fun e => JsNumber.digitsValue (amount e))).
    + exact (Permutation_rev
               [Sample.rent; Sample.unnamed; Sample.groceries]).
    + intros e [<-|[<-|[<-|[]]]] H; solve [reflexivity | discriminate H].
    + vm_compute. reflexivity.
Defined.

(** ** The ledger handlers *)

Lemma setExpenses_fixed (f : list Expense -> list Expense) (s : State) :
  f (expenses s) = expenses s -> setExpenses f s = s.
Proof. destruct s; unfold setExpenses; cbn; intros ->; reflexivity. Qed.

Lemma setExpenses_ext (f g : list Expense -> list Expense) (s : State) :
  f (expenses s) = g (expenses s) -> setExpenses f s = setExpenses g s.
Proof. unfold setExpenses; intros ->; reflexivity. Qed.

Lemma setExpenses_twice (f g : list Expense -> list Expense) (s : State) :
  setExpenses f (setExpenses g s) = setExpenses (fun l => f (g l)) s.
Proof. reflexivity. Qed.

Lemma filter_other_ids_fixed (i : Z) (l : list Expense) :
  (forall e, In e l -> id e <> i) ->
  filter (fun expense => negb (id expense =? i)) l = l.
Proof.
  induction l as [|e l IH]; intros H; cbn; [reflexivity|].
  destruct (Z.eqb_spec (id e) i) as [Heq|_]; cbn.
  - destruct (H e (or_introl eq_refl) Heq).
  - rewrite IH; [reflexivity|]. intros x Hx. apply H. right. exact Hx.
Qed.

(** X1: removing an id is idempotent, does nothing to a state that has
    no entry of that id, and keeps the remaining entries in their order
    (they are the entries of another id, filtered in place). *)
Theorem handleRemoveExpense_idempotent (i : Z) (s : State) :
  handleRemoveExpense i (handleRemoveExpense i s) = handleRemoveExpense i s
  /\ ((forall e, In e (expenses s) -> id e <> i) ->
      handleRemoveExpense i s = s)
  /\ (forall j,
        handleRemoveExpense i (handleRemoveExpense j s)
        = handleRemoveExpense j (handleRemoveExpense i s)).
Proof.
  unfold handleRemoveExpense. repeat split.
  - rewrite setExpenses_twice. apply setExpenses_ext.
    apply filter_other_ids_fixed.
    intros e He. apply filter_In in He. destruct He as [_ He].
    apply negb_true_iff, Z.eqb_neq in He. exact He.
  - intros H. apply setExpenses_fixed, filter_other_ids_fixed, H.
  - intros j. rewrite !setExpenses_twice. apply setExpenses_ext.
    induction (expenses s) as [|e l IH]; cbn; [reflexivity|].
    destruct (id e =? j) eqn:Hj, (id e =? i) eqn:Hi; cbn;
      rewrite ?Hj, ?Hi; cbn; rewrite ?IH; reflexivity.
Qed.

Lemma handleRemoveExpense_idempotent_witness :
  handleRemoveExpense 9 Sample.austin = Sample.austin.
Proof.
  apply (proj1 (proj2 (handleRemoveExpense_idempotent 9 Sample.austin))).
  intros e [<-|[<-|[]]]; discriminate.
Defined.

(** X2: adding an entry and then removing the id it was given gives the
    state back, provided no earlier entry carries that id. *)
Theorem add_then_remove_restores (now : Z) (s : State) :
  (forall e, In e (expenses s) -> id e <> now) ->
  handleRemoveExpense now (handleAddExpense now s) = s.
Proof.
  intros Hfresh. unfold handleRemoveExpense, handleAddExpense.
  rewrite setExpenses_twice. apply setExpenses_fixed.
  rewrite filter_app, filter_other_ids_fixed by exact Hfresh.
  cbn. rewrite Z.eqb_refl. cbn. apply app_nil_r.
Qed.

Lemma add_then_remove_restores_witness :
  handleRemoveExpense 9 (handleAddExpense 9 Sample.austin) = Sample.austin.
Proof.
  apply (add_then_remove_restores 9 Sample.austin).
  intros e [<-|[<-|[]]]; discriminate.
Defined.

Lemma withField_id (e : Expense) (field : Field) (value : JsString.t) :
  id (withField e field value) = id e.
Proof. destruct field; reflexivity. Qed.

(** X3: editing a field of the entries of one id keeps the number, the
    ids and the order of the entries, leaves the entries of every other
    id and the other field of every entry as they were, gives the edited
    field the new value in every entry of that id, and does nothing to a
    state that has no entry of that id. *)
Theorem handleExpenseChange_shape
  (i : Z) (field : Field) (value : JsString.t) (s : State) :
  map id (expenses (handleExpenseChange i field value s))
  = map id (expenses s)
  /\ filter (fun expense => negb (id expense =? i))
       (expenses (handleExpenseChange i field value s))
     = filter (fun expense => negb (id expense =? i)) (expenses s)
  /\ (forall e,
        In e (expenses (handleExpenseChange i field value s)) ->
        id e = i ->
        match field with
        | FieldName => name e
        | FieldAmount => amount e
        end = value)
  /\ match field with
     | FieldName =>
         map amount (expenses (handleExpenseChange i field value s))
         = map amount (expenses s)
     | FieldAmount =>
         map name (expenses (handleExpenseChange i field value s))
         = map name (expenses s)
     end
  /\ ((forall e, In e (expenses s) -> id e <> i) ->
      handleExpenseChange i field value s = s).
Proof.
  unfold handleExpenseChange. cbn [expenses setExpenses].
  repeat split.
  - rewrite map_map. apply map_ext. intros e.
    destruct (id e =? i); [apply withField_id|reflexivity].
  - induction (expenses s) as [|e l IH]; cbn; [reflexivity|].
    destruct (id e =? i) eqn:Hi; cbn.
    + rewrite withField_id, Hi. cbn. exact IH.
    + rewrite Hi. cbn. rewrite IH. reflexivity.
  - intros e He Hid. apply in_map_iff in He.
    destruct He as (x & Hx & _).
    destruct (Z.eqb_spec (id x) i) as [_|Hne].
    + subst e. destruct field; reflexivity.
    + subst e. destruct (Hne Hid).
  - destruct field; rewrite map_map; apply map_ext; intros e;
      destruct (id e =? i); reflexivity.
  - intros Habsent. apply setExpenses_fixed.
    rewrite <- (map_id (expenses s)) at 2.
    apply map_ext_in. intros e He.
    destruct (Z.eqb_spec (id e) i) as [Heq|_]; [|reflexivity].
    destruct (Habsent e He Heq).
Qed.

Lemma handleExpenseChange_shape_witness :
  handleExpenseChange 9 FieldAmount (JsString.str "12") Sample.austin
  = Sample.austin.
Proof.
  apply (handleExpenseChange_shape 9 FieldAmount (JsString.str "12")
           Sample.austin).
  intros e [<-|[<-|[]]]; discriminate.
Defined.

(** X4: of two edits of the same field of the same id the later one
    wins; an edit of the name and an edit of the amount commute, on the
    same id or not; and edits of different ids commute. *)
Theorem handleExpenseChange_compose (s : State) :
  (forall i field v v',
     handleExpenseChange i field v' (handleExpenseChange i field v s)
     = handleExpenseChange i field v' s)
  /\ (forall i j n a,
        handleExpenseChange i FieldName n
          (handleExpenseChange j FieldAmount a s)
        = handleExpenseChange j FieldAmount a
            (handleExpenseChange i FieldName n s))
  /\ (forall i j field field' v v',
        i <> j ->
        handleExpenseChange i field v (handleExpenseChange j field' v' s)
        = handleExpenseChange j field' v' (handleExpenseChange i field v s)).
Proof.
  unfold handleExpenseChange. repeat split.
  - intros i field v v'. rewrite setExpenses_twice. apply setExpenses_ext.
    rewrite map_map. apply map_ext. intros e.
    destruct (id e =? i) eqn:Hi; rewrite ?withField_id, Hi;
      [destruct field|]; reflexivity.
  - intros i j n a. rewrite !setExpenses_twice. apply setExpenses_ext.
    rewrite !map_map. apply map_ext. intros e.
    destruct (id e =? i) eqn:Hi, (id e =? j) eqn:Hj; cbn;
      rewrite ?Hi, ?Hj; reflexivity.
  - intros i j field field' v v' Hij.
    rewrite !setExpenses_twice. apply setExpenses_ext.
    rewrite !map_map. apply map_ext. intros e.
    destruct (Z.eqb_spec (id e) i) as [Hi|Hi],
             (Z.eqb_spec (id e) j) as [Hj|Hj];
      rewrite ?withField_id;
      repeat match goal with
             | |- context [Z.eqb ?a ?b] =>
                 destruct (Z.eqb_spec a b); try congruence
             end;
      reflexivity.
Qed.

Lemma handleExpenseChange_compose_witness :
  handleExpenseChange 1 FieldAmount (JsString.str "2000")
    (handleExpenseChange 2 FieldName (JsString.str "Phone") Sample.austin)
  = handleExpenseChange 2 FieldName (JsString.str "Phone")
      (handleExpenseChange 1 FieldAmount (JsString.str "2000")
         Sample.austin).
Proof.
  apply (handleExpenseChange_compose Sample.austin). discriminate.
Defined.

(** ** The ledger handlers and the total *)

(** X5: a freshly added entry is blank, so adding it changes neither the
    total, nor the gate, nor the entries that would be listed for the
    analysis; it is appended after the entries already there. *)
Theorem handleAddExpense_keeps_total (now : Z) (s : State) :
  totalExpenses (handleAddExpense now s) = totalExpenses s
  /\ isFormValid (handleAddExpense now s) = isFormValid s
  /\ filter isListedExpense (expenses (handleAddExpense now s))
     = filter isListedExpense (expenses s)
  /\ firstn (List.length (expenses s)) (expenses (handleAddExpense now s))
     = expenses s
  /\ List.length (expenses (handleAddExpense now s))
     = S (List.length (expenses s)).
Proof.
  unfold totalExpenses, handleAddExpense. cbn [expenses setExpenses].
  repeat split.
  - rewrite computeTotal_snoc. reflexivity.
  - rewrite filter_app. cbn. apply app_nil_r.
  - rewrite firstn_app, Nat.sub_diag, firstn_all. cbn. apply app_nil_r.
  - rewrite length_app. cbn. apply Nat.add_1_r.
Qed.

Lemma fold_valid_map (g : Expense -> Expense) (l : list Expense)
  (acc : JsNumber.t) :
  (forall e, In e l ->
     isValidExpense (g e) = isValidExpense e /\ amount (g e) = amount e) ->
  fold_left
    (fun sum expense =>
       JsNumber.add sum (JsNumber.parseFloat (amount expense)))
    (validExpenses (map g l)) acc
  = fold_left
      (fun sum expense =>
         JsNumber.add sum (JsNumber.parseFloat (amount expense)))
      (validExpenses l) acc.
Proof.
  unfold validExpenses.
  revert acc; induction l as [|e l IH]; intros acc H; cbn; [reflexivity|].
  destruct (H e (or_introl eq_refl)) as [Hvalid Hamount].
  rewrite Hvalid.
  destruct (isValidExpense e); cbn; rewrite ?Hamount; apply IH;
    intros x Hx; apply H; right; exact Hx.
Qed.

(** X6: renaming the entries of an id changes the total only by making
    a blank name non-blank or the reverse: when the new name is blank
    exactly if the old ones are, the total stays the same. *)
Theorem rename_keeps_total (i : Z) (value : JsString.t) (s : State) :
  (forall e,
     In e (expenses s) -> id e = i ->
     JsString.isEmpty (JsString.trim (name e))
     = JsString.isEmpty (JsString.trim value)) ->
  totalExpenses (handleExpenseChange i FieldName value s) = totalExpenses s.
Proof.
  intros Hblank.
  unfold totalExpenses, handleExpenseChange, computeTotal.
  cbn [expenses setExpenses].
  apply fold_valid_map. intros e He.
  destruct (Z.eqb_spec (id e) i) as [Hi|_]; [|split; reflexivity].
  split; [|reflexivity].
  unfold isValidExpense. cbn. rewrite (Hblank e He Hi). reflexivity.
Qed.

Lemma rename_keeps_total_witness :
  totalExpenses
    (handleExpenseChange 1 FieldName (JsString.str "Mortgage") Sample.austin)
  = totalExpenses Sample.austin.
Proof.
  apply (rename_keeps_total 1 (JsString.str "Mortgage") Sample.austin).
  intros e [<-|[<-|[]]] H; solve [reflexivity | discriminate H].
Defined.

(** ** Runs that succeed, and what every run leaves *)

Lemma handle_form (s s' : State) (ev : UiEvent) :
  form s = form s' -> form (handle s ev) = form (handle s' ev).
Proof.
  unfold form. intros H. injection H as Hg Hf Hl He.
  destruct ev; cbn; congruence.
Qed.

Lemma handleAll_form (evs : list UiEvent) (s s' : State) :
  form s = form s' -> form (handleAll evs s) = form (handleAll evs s').
Proof.
  revert s s'; induction evs as [|ev evs IH]; intros s s' H; [exact H|].
  unfold handleAll in *; cbn. apply IH, handle_form, H.
Qed.

Lemma handleAll_app (evs evs' : list UiEvent) (s : State) :
  handleAll (evs ++ evs') s = handleAll evs' (handleAll evs s).
Proof. apply fold_left_app. Qed.

(** X7: when the form is valid, the tax reply parses and the analysis
    call resolves, the run ends with the three values of the estimate and
    the text of the analysis stored, no message, the summary shown and
    the loading flag and label cleared, whatever the user did to the form
    meanwhile. *)
Theorem calculate_success_state
  (s0 : State) (env : Environment) (result : TaxJson) (text : JsString.t) :
  isFormValid s0 = true ->
  taxReply env = TaxParsed result ->
  analysisResponse env = Resolved text ->
  netIncome (final (calculate s0 env)) = Typed (estimatedNetIncome result)
  /\ estimatedTax (final (calculate s0 env))
     = Typed (estimatedTotalTax result)
  /\ taxDisclaimer (final (calculate s0 env))
     = Typed (json_disclaimer result)
  /\ analysis (final (calculate s0 env)) = text
  /\ error (final (calculate s0 env)) = None
  /\ showResults (final (calculate s0 env)) = true
  /\ isLoading (final (calculate s0 env)) = false
  /\ loadingStatus (final (calculate s0 env)) = [].
Proof.
  intros Hvalid Hreply Hresponse.
  enter_valid Hvalid. rewrite Hreply, Hresponse.
  through_events. repeat split.
Qed.

Lemma calculate_success_state_witness :
  netIncome (final (calculate Sample.austin Sample.rentEdited))
  = Typed (estimatedNetIncome Sample.estimate)
  /\ estimatedTax (final (calculate Sample.austin Sample.rentEdited))
     = Typed (estimatedTotalTax Sample.estimate)
  /\ taxDisclaimer (final (calculate Sample.austin Sample.rentEdited))
     = Typed (json_disclaimer Sample.estimate)
  /\ analysis (final (calculate Sample.austin Sample.rentEdited))
     = JsString.str "You are doing well."
  /\ error (final (calculate Sample.austin Sample.rentEdited)) = None
  /\ showResults (final (calculate Sample.austin Sample.rentEdited)) = true
  /\ isLoading (final (calculate Sample.austin Sample.rentEdited)) = false
  /\ loadingStatus (final (calculate Sample.austin Sample.rentEdited)) = [].
Proof.
  apply (calculate_success_state Sample.austin Sample.rentEdited
           Sample.estimate (JsString.str "You are doing well."));
    reflexivity.
Defined.

(** X8: a run ends without a message exactly when the form was valid,
    the tax reply parsed to an object whose net income is a number, and
    the analysis call resolved; every other run ends with one of the two
    fixed messages, never with the message of the error the client
    threw. *)
Theorem calculate_error_cases (s0 : State) (env : Environment) :
  (error (final (calculate s0 env)) = None
   <-> isFormValid s0 = true
       /\ (exists n t d, taxReply env = TaxObject (Typed n) t d)
       /\ (exists text, analysisResponse env = Resolved text))
  /\ (error (final (calculate s0 env)) = None
      \/ error (final (calculate s0 env)) = Some validationMessage
      \/ error (final (calculate s0 env)) = Some failureMessage).
Proof.
  unfold calculate, handleCalculate_enter.
  destruct (isFormValid s0); cbn [negb].
  - destruct (taxReply env) as [| |[n| | |k] t d];
      try (through_events; split; [split|]; [discriminate| |auto];
           intros (_ & (n' & t' & d' & Hr) & _); discriminate Hr).
    destruct (analysisResponse env) as [|text]; through_events.
    + split; [split|]; [discriminate| |auto].
      intros (_ & _ & [text Ht]); discriminate Ht.
    + split; [split|]; [|reflexivity|auto].
      intros _. repeat split; repeat eexists.
  - cbn. split; [split|]; [discriminate| |auto].
    intros (H & _). discriminate H.
Qed.

Lemma calculate_error_cases_witness :
  error (final (calculate Sample.austin Sample.quiet)) = None.
Proof.
  apply (proj1 (calculate_error_cases Sample.austin Sample.quiet)).
  split; [reflexivity|]. split; repeat eexists.
Defined.

(** X9: every run that passes the gate ends with the loading flag down
    and the loading label empty, however its remote calls end; a run the
    gate stops leaves both as they were. *)
Theorem calculate_clears_loading (s0 : State) (env : Environment) :
  isLoading (final (calculate s0 env))
  = (if isFormValid s0 then false else isLoading s0)
  /\ loadingStatus (final (calculate s0 env))
     = (if isFormValid s0 then [] else loadingStatus s0).
Proof.
  unfold calculate, handleCalculate_enter.
  destruct (isFormValid s0); cbn [negb]; [|split; reflexivity].
  destruct (taxReply env) as [| |[n| | |k] t d];
    try (through_events; split; reflexivity).
  destruct (analysisResponse env); through_events; split; reflexivity.
Qed.

(** X10: a run never writes the form: at its end the income, the filing
    status, the location and the ledger are those of the clicked state
    with the user's own edits applied, in the order they were made (the
    edits of the second wait only when the analysis call was made). *)
Theorem calculate_keeps_form (s0 : State) (env : Environment) :
  form (final (calculate s0 env))
  = form (if isFormValid s0
          then match taxReply env with
               | TaxObject (Typed _) _ _ =>
                   handleAll (duringTax env ++ duringAnalysis env) s0
               | _ => handleAll (duringTax env) s0
               end
          else s0).
Proof.
  unfold calculate, handleCalculate_enter.
  destruct (isFormValid s0); cbn [negb]; [|reflexivity].
  destruct (taxReply env) as [| |[n| | |k] t d]; cbn;
    try (apply handleAll_form; reflexivity).
  rewrite handleAll_app.
  destruct (analysisResponse env); cbn;
    repeat (apply handleAll_form; cbn); reflexivity.
Qed.

(** ** The remote calls of a run *)



Lemma validExpenses_listed (l : list Expense) :
  validExpenses (filter isListedExpense l) = validExpenses l.
Proof.
  unfold validExpenses.
  induction l as [|e l IH]; cbn; [reflexivity|].
  unfold isValidExpense at 2, isListedExpense at 1.
  destruct (negb (JsString.isEmpty (JsString.trim (name e)))
            && negb (JsString.isEmpty (JsString.trim (amount e)))) eqn:H;
    cbn.
  - unfold isValidExpense at 1. rewrite H. cbn.
    rewrite IH. reflexivity.
  - exact IH.
Qed.

(** X12: the analysis request agrees with itself: the entries it lists
    that count toward a total are the counted entries of the clicked
    ledger, the total it carries is the total of the entries it lists,
    its balance is its net income, made a number, minus its total, and
    its gross income is the one the tax call was given. *)
Theorem analysis_request_consistent
  (s0 : State) (env : Environment) (args : AnalysisArgs) :
  analysisCall (calculate s0 env) = Some args ->
  validExpenses (arg_expenses args) = validExpenses (expenses s0)
  /\ Typed (computeTotal (arg_expenses args)) = arg_totalExpenses args
  /\ arg_remainingBalance args
     = Typed (JsNumber.sub (toNumber (arg_netIncome args))
                (toNumber (arg_totalExpenses args)))
  /\ arg_location args = location s0
  /\ option_map (fun taxArgs => Typed (grossMonthlyIncome taxArgs))
       (taxCall (calculate s0 env))
     = Some (arg_grossIncome args).
Proof.
  unfold calculate, handleCalculate_enter.
  destruct (isFormValid s0); cbn [negb]; [|discriminate].
  destruct (taxReply env) as [| |v t d]; cbn; try discriminate.
  intros [= <-]. cbn.
  unfold totalExpenses, computeTotal.
  rewrite validExpenses_listed. repeat split.
Qed.

Lemma analysis_request_consistent_witness :
  Typed (computeTotal (filter isListedExpense (expenses Sample.withGym)))
  = Typed (totalExpenses Sample.withGym).
Proof.
  apply (analysis_request_consistent Sample.withGym Sample.quiet
           {| arg_grossIncome :=
                Typed (JsNumber.parseFloat (grossIncome Sample.withGym));
              arg_netIncome := Typed (estimatedNetIncome Sample.estimate);
              arg_location := location Sample.withGym;
              arg_expenses := filter isListedExpense (expenses Sample.withGym);
              arg_totalExpenses := Typed (totalExpenses Sample.withGym);
              arg_remainingBalance :=
                Typed (JsNumber.sub (estimatedNetIncome Sample.estimate)
                         (totalExpenses Sample.withGym)) |}).
  reflexivity.
Defined.

(** X13: clicking again changes nothing: when the form is left alone
    during both runs and the remote calls end the same way, a second run
    from the state the first one left ends in that same state. *)
Theorem calculate_twice (s0 : State) (env : Environment) :
  duringTax env = [] ->
  duringAnalysis env = [] ->
  final (calculate (final (calculate s0 env)) env)
  = final (calculate s0 env).
Proof.
  destruct env as [evs reply evs' response]. cbn. intros -> ->.
  destruct s0 as [g f l es n t d a ld ls er sh].
  unfold calculate, handleCalculate_enter, isFormValid.
  cbn [grossIncome location duringTax duringAnalysis taxReply
       analysisResponse handleAll fold_left].
  destruct (formValid g l) eqn:Hvalid; cbn [negb].
  - destruct reply as [| |[k| | |k] t' d']; cbn;
      try (rewrite Hvalid; cbn; reflexivity).
    destruct response as [|text]; cbn; rewrite Hvalid; cbn; reflexivity.
  - cbn. rewrite Hvalid. cbn. reflexivity.
Qed.

Lemma calculate_twice_witness :
  final (calculate (final (calculate Sample.austin Sample.analysisDown))
           Sample.analysisDown)
  = final (calculate Sample.austin Sample.analysisDown).
Proof.
  apply (calculate_twice Sample.austin Sample.analysisDown); reflexivity.
Defined.

(** ** The rendered page during and after a run *)

Lemma awaitingTax_results (s0 : State) (evs : list UiEvent) :
  isFormValid s0 = true ->
  results (awaitingTax s0 evs)
  = {| res_netIncome := Null;
       res_estimatedTax := Null;
       res_taxDisclaimer := taxDisclaimer s0;
       res_analysis := [];
       res_isLoading := true;
       res_loadingStatus := JsString.str "Estimating your taxes...";
       res_error := None;
       res_showResults := true |}.
Proof.
  intros Hvalid. unfold awaitingTax, handleCalculate_enter.
  rewrite Hvalid. cbn [negb fst]. rewrite handleAll_results. reflexivity.
Qed.

Lemma awaitingAnalysis_results
  (s0 : State) (evs : list UiEvent) (taxResult : TaxResult)
  (evs' : list UiEvent) :
  isFormValid s0 = true ->
  results (awaitingAnalysis s0 evs taxResult evs')
  = {| res_netIncome := GeminiService.netIncome taxResult;
       res_estimatedTax := GeminiService.totalTax taxResult;
       res_taxDisclaimer := GeminiService.disclaimer taxResult;
       res_analysis := [];
       res_isLoading := true;
       res_loadingStatus := JsString.str "Analyzing your budget...";
       res_error := None;
       res_showResults := true |}.
Proof.
  intros Hvalid.
  pose proof (awaitingTax_results s0 evs Hvalid) as Htax.
  unfold awaitingAnalysis. rewrite handleAll_results.
  unfold results in *. cbn in *.
  injection Htax as _ _ _ Ha Hl _ He Hs.
  rewrite Ha, Hl, He, Hs. reflexivity.
Qed.

(** X14: while a run is suspended on either remote call the button is
    disabled and reads the status of the stage, whatever the user does to
    the form, so the page offers no way to start a second run meanwhile;
    when the run is over the button reads its usual label and is
    disabled only if the form is no longer valid. *)
Theorem button_disabled_while_running
  (s0 : State) (env : Environment) (taxResult : TaxResult) :
  isFormValid s0 = true ->
  buttonDisabled (render (awaitingTax s0 (duringTax env))) = true
  /\ buttonLabel (render (awaitingTax s0 (duringTax env)))
     = JsString.str "Estimating your taxes..."
  /\ buttonDisabled
       (render (awaitingAnalysis s0 (duringTax env) taxResult
                  (duringAnalysis env))) = true
  /\ buttonLabel
       (render (awaitingAnalysis s0 (duringTax env) taxResult
                  (duringAnalysis env)))
     = JsString.str "Analyzing your budget..."
  /\ buttonDisabled (render (final (calculate s0 env)))
     = negb (isFormValid (final (calculate s0 env)))
  /\ buttonLabel (render (final (calculate s0 env)))
     = JsString.str "Calculate & Analyze".
Proof.
  intros Hvalid.
  pose proof (f_equal res_isLoading
                (awaitingTax_results s0 (duringTax env) Hvalid)) as Hl.
  pose proof (f_equal res_loadingStatus
                (awaitingTax_results s0 (duringTax env) Hvalid)) as Hs.
  pose proof (f_equal res_isLoading
                (awaitingAnalysis_results s0 (duringTax env) taxResult
                   (duringAnalysis env) Hvalid)) as Hl'.
  pose proof (f_equal res_loadingStatus
                (awaitingAnalysis_results s0 (duringTax env) taxResult
                   (duringAnalysis env) Hvalid)) as Hs'.
  cbn [results res_isLoading res_loadingStatus] in Hl, Hs, Hl', Hs'.
  assert (Hend : isLoading (final (calculate s0 env)) = false).
  { enter_valid Hvalid.
    destruct (taxReply env) as [| |[n| | |k] t d];
      try (through_events; reflexivity).
    destruct (analysisResponse env); through_events; reflexivity. }
  unfold render. cbn [buttonDisabled buttonLabel].
  rewrite Hl, Hs, Hl', Hs', Hend, !orb_true_r, orb_false_r.
  repeat split.
Qed.

Lemma button_disabled_while_running_witness :
  buttonDisabled
    (render (awaitingTax Sample.austin (duringTax Sample.rentEdited)))
  = true.
Proof.
  apply (button_disabled_while_running Sample.austin Sample.rentEdited
           {| GeminiService.netIncome := Typed (JsNumber.ofZ 4000);
              GeminiService.totalTax := Typed (JsNumber.ofZ 1000);
              GeminiService.disclaimer := Typed [] |}).
  reflexivity.
Defined.



(** Rewrites the result cells of a state whose [results] are known. *)
Ltac with_results H :=
  let Hn := fresh in let Ht := fresh in let Hd := fresh in
  let Ha := fresh in let Hl := fresh in let Hs := fresh in
  let He := fresh in let Hr := fresh in
  unfold results in H;
  injection H as Hn Ht Hd Ha Hl Hs He Hr;
  unfold render, renderSummary, remainingBalance;
  rewrite ?Hn, ?Ht, ?Hd, ?Ha, ?Hl, ?Hs, ?He, ?Hr.

(** X16: while the tax call is in flight the page shows the summary with
    dots for the tax, the net income and the balance, the total of the
    ledger as it is being edited, the tips placeholder and no message;
    while the analysis call is in flight, which requires a net income
    that is a number, it shows that net income, the tax the reply held
    (dots if it held [null]), a balance computed from the ledger as it
    is now, and the pulsing bars. *)
Theorem pending_page
  (s0 : State) (evs : list UiEvent) (taxResult : TaxResult)
  (evs' : list UiEvent) (n : JsNumber.t) :
  isFormValid s0 = true ->
  GeminiService.netIncome taxResult = Typed n ->
  panel (render (awaitingTax s0 evs))
  = SummaryPanel
      {| shownGross :=
           orZero (JsNumber.parseFloat (grossIncome (awaitingTax s0 evs)));
         shownTax := Dots;
         shownNet := Dots;
         shownTotal := totalExpenses (awaitingTax s0 evs);
         shownBalance := Dots;
         shownBalanceColor := JsString.str "text-gray-700";
         shownAnalysis := Prose tipsPlaceholder |}
  /\ errorLine (render (awaitingTax s0 evs)) = None
  /\ panel (render (awaitingAnalysis s0 evs taxResult evs'))
     = SummaryPanel
         {| shownGross :=
              orZero (JsNumber.parseFloat
                        (grossIncome
                           (awaitingAnalysis s0 evs taxResult evs')));
            shownTax := money (GeminiService.totalTax taxResult);
            shownNet := Formatted (Typed n);
            shownTotal :=
              totalExpenses (awaitingAnalysis s0 evs taxResult evs');
            shownBalance :=
              Formatted
                (Typed
                   (JsNumber.sub n
                      (totalExpenses
                         (awaitingAnalysis s0 evs taxResult evs'))));
            shownBalanceColor :=
              getBalanceColor
                (Some
                   (JsNumber.sub n
                      (totalExpenses
                         (awaitingAnalysis s0 evs taxResult evs'))));
            shownAnalysis := Skeleton |}
  /\ errorLine (render (awaitingAnalysis s0 evs taxResult evs')) = None.
Proof.
  intros Hvalid Hnet.
  pose proof (awaitingTax_results s0 evs Hvalid) as Htax.
  pose proof (awaitingAnalysis_results s0 evs taxResult evs' Hvalid)
    as Hanalysis.
  split; [|split; [|split]].
  - clear Hanalysis. with_results Htax. reflexivity.
  - clear Hanalysis. with_results Htax. reflexivity.
  - clear Htax. with_results Hanalysis. rewrite Hnet. reflexivity.
  - clear Htax. with_results Hanalysis. reflexivity.
Qed.

Lemma pending_page_witness :
  errorLine
    (render (awaitingTax Sample.austin (duringTax Sample.rentEdited)))
  = None
  /\ shownTotal
       (renderSummary
          (awaitingTax Sample.austin (duringTax Sample.rentEdited)))
     = JsNumber.ofZ 2000.
Proof.
  split; [|reflexivity].
  apply (pending_page Sample.austin (duringTax Sample.rentEdited)
           {| GeminiService.netIncome := Typed (JsNumber.ofZ 4000);
              GeminiService.totalTax := Typed (JsNumber.ofZ 1000);
              GeminiService.disclaimer := Typed [] |} []
           (JsNumber.ofZ 4000));
    reflexivity.
Defined.

Lemma final_results_success
  (s0 : State) (env : Environment) (result : TaxJson) (text : JsString.t) :
  isFormValid s0 = true ->
  taxReply env = TaxParsed result ->
  analysisResponse env = Resolved text ->
  results (final (calculate s0 env))
  = {| res_netIncome := Typed (estimatedNetIncome result);
       res_estimatedTax := Typed (estimatedTotalTax result);
       res_taxDisclaimer := Typed (json_disclaimer result);
       res_analysis := text;
       res_isLoading := false;
       res_loadingStatus := [];
       res_error := None;
       res_showResults := true |}.
Proof.
  intros Hvalid Hreply Hresponse.
  enter_valid Hvalid. rewrite Hreply, Hresponse.
  unfold results. through_events. reflexivity.
Qed.

Lemma final_form_success
  (s0 : State) (env : Environment) (result : TaxJson) :
  isFormValid s0 = true ->
  taxReply env = TaxParsed result ->
  form (final (calculate s0 env))
  = form (handleAll (duringTax env ++ duringAnalysis env) s0).
Proof.
  intros Hvalid Hreply.
  enter_valid Hvalid. rewrite Hreply. cbn. rewrite handleAll_app.
  destruct (analysisResponse env); cbn;
    repeat (apply handleAll_form; cbn); reflexivity.
Qed.

(** X17: after a complete run the page shows the estimate, the total of
    the ledger as it is at the end, and as balance the net income minus
    that total, which is the balance the analysis was given only if the
    counted entries did not change during the run; an empty analysis
    text is shown as the tips placeholder. *)
Theorem complete_page
  (s0 : State) (env : Environment) (result : TaxJson) (text : JsString.t) :
  isFormValid s0 = true ->
  taxReply env = TaxParsed result ->
  analysisResponse env = Resolved text ->
  let edited := handleAll (duringTax env ++ duringAnalysis env) s0 in
  panel (render (final (calculate s0 env)))
  = SummaryPanel
      {| shownGross := orZero (JsNumber.parseFloat (grossIncome edited));
         shownTax := Formatted (Typed (estimatedTotalTax result));
         shownNet := Formatted (Typed (estimatedNetIncome result));
         shownTotal := totalExpenses edited;
         shownBalance :=
           Formatted
             (Typed
                (JsNumber.sub (estimatedNetIncome result)
                   (totalExpenses edited)));
         shownBalanceColor :=
           getBalanceColor
             (Some (JsNumber.sub (estimatedNetIncome result)
                      (totalExpenses edited)));
         shownAnalysis :=
           Prose (if JsString.isEmpty text then tipsPlaceholder else text) |}
  /\ errorLine (render (final (calculate s0 env))) = None
  /\ (validExpenses (expenses edited) = validExpenses (expenses s0) ->
      option_map (fun args => Formatted (arg_remainingBalance args))
        (analysisCall (calculate s0 env))
      = Some (shownBalance (renderSummary (final (calculate s0 env))))).
Proof.
  intros Hvalid Hreply Hresponse edited.
  pose proof (final_results_success s0 env result text
                Hvalid Hreply Hresponse) as Hresults.
  pose proof (final_form_success s0 env result Hvalid Hreply) as Hform.
  fold edited in Hform.
  assert (Hg : grossIncome (final (calculate s0 env)) = grossIncome edited)
    by exact (f_equal form_grossIncome Hform).
  assert (He : expenses (final (calculate s0 env)) = expenses edited)
    by exact (f_equal form_expenses Hform).
  split; [|split].
  - with_results Hresults. unfold totalExpenses. rewrite Hg, He. reflexivity.
  - with_results Hresults. reflexivity.
  - intros Hsame.
    assert (Hcall : option_map arg_remainingBalance
                      (analysisCall (calculate s0 env))
                    = Some (Typed
                              (JsNumber.sub (estimatedNetIncome result)
                                 (totalExpenses s0)))).
    { enter_valid Hvalid. rewrite Hreply. reflexivity. }
    destruct (analysisCall (calculate s0 env)) as [args|];
      [|discriminate Hcall].
    cbn in Hcall. injection Hcall as Hcall. cbn. rewrite Hcall.
    with_results Hresults. cbn.
    unfold totalExpenses, computeTotal. rewrite He, Hsame. reflexivity.
Qed.

Lemma complete_page_witness :
  errorLine (render (final (calculate Sample.austin Sample.quiet))) = None
  /\ shownBalance (renderSummary (final (calculate Sample.austin Sample.quiet)))
     = Formatted (Typed (JsNumber.ofZ 2500)).
Proof.
  split; [|reflexivity].
  apply (complete_page Sample.austin Sample.quiet Sample.estimate
           (JsString.str "You are doing well.")); reflexivity.
Defined.

(** ** The colour of the balance and the income shown *)

(** X18: the balance is green exactly when it is a number above zero
    ([+Infinity] included), red exactly when it is a number below zero,
    and grey in every other case: no balance yet, a zero of either sign,
    or [NaN]. *)
Theorem getBalanceColor_cases (balance : option JsNumber.t) :
  (getBalanceColor balance = JsString.str "text-green-500"
   <-> balance = Some (S754_infinity false)
       \/ exists m e, balance = Some (S754_finite false m e))
  /\ (getBalanceColor balance = JsString.str "text-red-500"
      <-> balance = Some (S754_infinity true)
          \/ exists m e, balance = Some (S754_finite true m e))
  /\ (getBalanceColor balance = JsString.str "text-gray-700"
      <-> balance = None
          \/ balance = Some JsNumber.NaN
          \/ exists s, balance = Some (S754_zero s)).
Proof.
  destruct balance as [[[]|[]| |[] m e]|];
    (split; [|split]); cbn;
    (split;
     [ intros H; first [ discriminate H | eauto 6 ]
     | intros H;
       repeat match goal with
              | H : _ \/ _ |- _ => destruct H as [H|H]
              | H : exists _, _ |- _ => destruct H as [? H]
              end;
       first [ discriminate H | reflexivity ] ]).
Qed.

Lemma getBalanceColor_cases_witness :
  getBalanceColor
    (Some (JsNumber.sub JsNumber.Infinity JsNumber.Infinity))
  = JsString.str "text-gray-700".
Proof.
  apply (proj2 (proj2 (getBalanceColor_cases
                         (Some (JsNumber.sub JsNumber.Infinity
                                  JsNumber.Infinity))))).
  right. left. reflexivity.
Defined.

(** X19: the gross income on the summary is never [NaN] and never a
    negative zero: an income that does not parse, or parses to a zero,
    is shown as 0, and whenever the gate is open the income shown is the
    parsed one, the one the tax call is given. *)
Theorem shownGross_cases (s : State) :
  JsNumber.isNaN (shownGross (renderSummary s)) = false
  /\ shownGross (renderSummary s) <> S754_zero true
  /\ (JsNumber.isNaN (JsNumber.parseFloat (grossIncome s)) = true ->
      shownGross (renderSummary s) = JsNumber.zero)
  /\ (isFormValid s = true ->
      shownGross (renderSummary s) = JsNumber.parseFloat (grossIncome s)).
Proof.
  unfold renderSummary, isFormValid, formValid. cbn [shownGross].
  destruct (JsNumber.parseFloat (grossIncome s)) as [[]|[]| |[] m e]; cbn;
    repeat split; try discriminate; try reflexivity.
Qed.

Lemma shownGross_cases_witness :
  shownGross (renderSummary Sample.incomeCleared) = JsNumber.zero
  /\ shownGross (renderSummary Sample.austin) = JsNumber.ofZ 5000.
Proof.
  split.
  - apply (shownGross_cases Sample.incomeCleared). reflexivity.
  - apply (shownGross_cases Sample.austin). reflexivity.
Defined.

(** ** White space in the form *)

Lemma trimStart_app_white (ws s : JsString.t) :
  forallb JsString.isWhiteSpace ws = true ->
  JsString.trimStart (ws ++ s) = JsString.trimStart s.
Proof.
  induction ws as [|c ws IH]; cbn; [reflexivity|].
  intros H. apply andb_true_iff in H. destruct H as [Hc Hws].
  rewrite Hc. apply IH, Hws.
Qed.

Lemma parseFloat_app_white (ws s : JsString.t) :
  forallb JsString.isWhiteSpace ws = true ->
  JsNumber.parseFloat (ws ++ s) = JsNumber.parseFloat s.
Proof.
  intros H. unfold JsNumber.parseFloat.
  rewrite trimStart_app_white by exact H. reflexivity.
Qed.

(** X20: white space in front of the income or of an amount, and white
    space around the location or around a name, changes neither the
    gate, nor whether an entry counts, nor what it adds to the total. *)
Theorem white_space_ignored (ws ws' : JsString.t) :
  forallb JsString.isWhiteSpace ws = true ->
  forallb JsString.isWhiteSpace ws' = true ->
  (forall grossIncome location,
     formValid (ws ++ grossIncome) (ws' ++ location ++ ws)
     = formValid grossIncome location)
  /\ (forall e,
        isValidExpense {| id := id e;
                          name := ws ++ name e ++ ws';
                          amount := ws' ++ amount e |}
        = isValidExpense e)
  /\ (forall before e after,
        computeTotal
          (before ++ {| id := id e;
                        name := ws ++ name e ++ ws';
                        amount := ws' ++ amount e |} :: after)
        = computeTotal (before ++ e :: after)).
Proof.
  intros Hws Hws'.
  assert (Hvalid : forall e,
            isValidExpense {| id := id e;
                              name := ws ++ name e ++ ws';
                              amount := ws' ++ amount e |}
            = isValidExpense e).
  { intros e. unfold isValidExpense. cbn [name amount].
    rewrite !isEmpty_trim, !forallb_app, Hws, Hws', andb_true_r.
    rewrite parseFloat_app_white by exact Hws'. reflexivity. }
  split; [|split; [exact Hvalid|]].
  - intros g l. unfold formValid.
    rewrite !isEmpty_trim, !forallb_app, Hws, Hws', andb_true_r.
    rewrite parseFloat_app_white by exact Hws. reflexivity.
  - intros before e after. unfold computeTotal.
    rewrite !validExpenses_app. cbn. rewrite Hvalid.
    destruct (isValidExpense e); [|reflexivity].
    rewrite !fold_left_app. cbn.
    rewrite parseFloat_app_white by exact Hws'. reflexivity.
Qed.

Lemma white_space_ignored_witness :
  formValid (JsString.str "  5000") (JsString.str " Austin  ")
  = formValid (JsString.str "5000") (JsString.str "Austin").
Proof.
  apply (proj1 (white_space_ignored (JsString.str "  ") (JsString.str " ")
                  eq_refl eq_refl)
           (JsString.str "5000") (JsString.str "Austin")).
Defined.

(** ** What holds of the page at rest *)

(** X21: in every state the page can be in at rest, from the first
    render on, through any form events and any complete runs, whatever
    the replies held: nothing is loading; the message, if any, is one of
    the two fixed ones; the generic failure message is never shown
    together with the summary; and whenever the summary is shown the net
    income holds a number.  (The tax need not: a reply without its tax
    field completes the run all the same.) *)
Theorem reachable_invariant (s : State) :
  Reachable s ->
  isLoading s = false
  /\ loadingStatus s = []
  /\ (error s = None \/ error s = Some validationMessage
      \/ error s = Some failureMessage)
  /\ (error s = Some failureMessage -> showResults s = false)
  /\ (showResults s = true -> exists n, netIncome s = Typed n).
Proof.
  induction 1 as [now|s ev _ IH|s env _ IH].
  - cbn. repeat split; auto; discriminate.
  - pose proof (f_equal res_isLoading (handle_results s ev)) as Hl.
    pose proof (f_equal res_loadingStatus (handle_results s ev)) as Hs.
    pose proof (f_equal res_error (handle_results s ev)) as He.
    pose proof (f_equal res_showResults (handle_results s ev)) as Hr.
    pose proof (f_equal res_netIncome (handle_results s ev)) as Hn.
    cbn in Hl, Hs, He, Hr, Hn.
    rewrite Hl, Hs, He, Hr, Hn. exact IH.
  - destruct IH as (Hl & Hs & He & Hf & Hshown).
    unfold calculate, handleCalculate_enter.
    destruct (isFormValid s); cbn [negb].
    + destruct (taxReply env) as [| |[n| | |k] t d];
        try (through_events; repeat split; auto; discriminate).
      destruct (analysisResponse env) as [|text]; through_events;
        repeat split; auto; try discriminate; eauto.
    + cbn. repeat split; auto. discriminate.
Qed.

(** A reply that lacks its tax field completes the run: the summary is
    shown with a net income and a tax that is [undefined]. *)
Example run_with_missing_tax :
  showResults (final (calculate Sample.austin Sample.taxMissing)) = true
  /\ error (final (calculate Sample.austin Sample.taxMissing)) = None
  /\ netIncome (final (calculate Sample.austin Sample.taxMissing))
     = Typed (JsNumber.ofZ 4000)
  /\ estimatedTax (final (calculate Sample.austin Sample.taxMissing))
     = Undefined.
Proof. repeat split. Qed.

(** An empty reply object fails the run at the analysis stage, on the
    [TypeError] of the prompt, whatever the remote call would answer. *)
Example run_with_empty_reply :
  analysisCall (calculate Sample.austin Sample.replyEmpty) <> None
  /\ showResults (final (calculate Sample.austin Sample.replyEmpty)) = false
  /\ error (final (calculate Sample.austin Sample.replyEmpty))
     = Some failureMessage
  /\ netIncome (final (calculate Sample.austin Sample.replyEmpty))
     = Undefined.
Proof. repeat split. discriminate. Qed.

Lemma reachable_invariant_witness :
  isLoading
    (final (calculate
              (handle (handle (initial 1)
                         (GrossIncomeChange (JsString.str "5000")))
                 (LocationChange (JsString.str "Austin")))
              Sample.quiet))
  = false.
Proof.
  apply (reachable_invariant
           (final (calculate
                     (handle (handle (initial 1)
                                (GrossIncomeChange (JsString.str "5000")))
                        (LocationChange (JsString.str "Austin")))
                     Sample.quiet))).
  apply reach_run, reach_event, reach_event, reach_initial.
Defined.

(** ** Whole amounts *)

Lemma sumOf_digits_abs (l : list Expense) :
  (forall e, In e l -> forallb JsNumber.isDigit (amount e) = true) ->
  sumOf (fun e => Z.abs (JsNumber.digitsValue (amount e))) l
  = sumOf (fun e => JsNumber.digitsValue (amount e)) l.
Proof.
  unfold sumOf. induction l as [|e l IH]; intros H; cbn; [reflexivity|].
  rewrite IH by (intros x Hx; apply H; right; exact Hx).
  pose proof (digitsValue_nonneg (amount e) 0
                (H e (or_introl eq_refl)) (Z.le_refl 0)) as Hnonneg.
  fold (JsNumber.digitsValue (amount e)) in Hnonneg. lia.
Qed.

(** X22: when every counted amount is written with decimal digits only
    and these whole numbers add up to less than [2^53], the total is
    exactly their sum: no rounding takes place. *)
Theorem computeTotal_exact_on_whole_amounts (es : list Expense) :
  (forall e,
     In e es -> isValidExpense e = true ->
     forallb JsNumber.isDigit (amount e) = true) ->
  sumOf (fun e => JsNumber.digitsValue (amount e)) (validExpenses es)
  < 2 ^ 53 ->
  computeTotal es
  = JsNumber.ofZ
      (sumOf (fun e => JsNumber.digitsValue (amount e)) (validExpenses es)).
Proof.
  intros Hdigits Hbound.
  assert (Hvalid : forall e,
            In e (validExpenses es) ->
            forallb JsNumber.isDigit (amount e) = true).
  { intros e He. apply filter_In in He. apply Hdigits; apply He. }
  unfold computeTotal. change JsNumber.zero with (JsNumber.ofZ 0).
  rewrite (fold_add_ofZ (fun e => JsNumber.digitsValue (amount e))).
  - reflexivity.
  - intros e He.
    pose proof (Hvalid e He) as Hd.
    apply filter_In in He. destruct He as [_ He].
    destruct (amount e) as [|c s] eqn:Hamount.
    + unfold isValidExpense in He. rewrite Hamount in He.
      cbn in He. rewrite andb_false_r in He. discriminate He.
    + apply parseFloat_digits, Hd.
  - rewrite sumOf_digits_abs by exact Hvalid. cbn. exact Hbound.
Qed.

Lemma computeTotal_exact_on_whole_amounts_witness :
  computeTotal [Sample.rent; Sample.unnamed; Sample.groceries]
  = JsNumber.ofZ 1920.
Proof.
  apply (computeTotal_exact_on_whole_amounts
           [Sample.rent; Sample.unnamed; Sample.groceries]).
  - intros e [<-|[<-|[<-|[]]]] H; reflexivity.
  - vm_compute. reflexivity.
Defined.
